(** * The submit-mail route: validation, formatting, relay and CORS

    A shallow embedding of [src/app/api/submit-mail/route.ts].

    JavaScript strings are sequences of UTF-16 code units, JSON payloads are
    the values [JSON.parse] can produce, a property read that finds nothing
    is [undefined], and an operation that can raise (a property read on
    [null], a method call on a non-string, a failed conversion to string, an
    awaited promise that rejects) returns a [completion]. *)

From Stdlib Require Import NArith List Ascii String Bool Lia.
From Stdlib Require Import Floats.SpecFloat.
From stdpp Require Import gmap list.

Set Warnings "-register-all".
Set Default Proof Using "Type".

Local Open Scope N_scope.

(** ** Strings *)

(** A JavaScript string: a list of UTF-16 code units. *)
Definition jsstring : Type := list N.

(** The code units of an ASCII literal of the source. *)
Definition lit (s : string) : jsstring :=
  map N_of_ascii (list_ascii_of_string s).

Definition LF : N := 10.

(** [a === b] on two strings. *)
Definition str_eqb (a b : jsstring) : bool := bool_decide (a = b).

(** The code units of ECMAScript's WhiteSpace and LineTerminator productions:
    what [String.prototype.trim] strips and what [\s] matches. *)
Definition isWhiteSpace (c : N) : bool :=
  existsb (N.eqb c)
    [9; 10; 11; 12; 13; 32; 160; 5760; 8232; 8233; 8239; 8287; 12288; 65279]
  || ((8192 <=? c) && (c <=? 8202)).

Fixpoint trimStart (s : jsstring) : jsstring :=
  match s with
  | c :: r => if isWhiteSpace c then trimStart r else s
  | [] => []
  end.

Definition trimEnd (s : jsstring) : jsstring := rev (trimStart (rev s)).

(** [s.trim()] *)
Definition trim (s : jsstring) : jsstring := trimEnd (trimStart s).

(** [s.replace(/\n/g, by)] for a replacement without [$] patterns. *)
Fixpoint replace_newlines (by_ : jsstring) (s : jsstring) : jsstring :=
  match s with
  | [] => []
  | c :: r =>
      if c =? LF then by_ ++ replace_newlines by_ r
      else c :: replace_newlines by_ r
  end.

(** [parts.join(sep)] on an array of strings. *)
Fixpoint join (sep : jsstring) (parts : list jsstring) : jsstring :=
  match parts with
  | [] => []
  | [p] => p
  | p :: rest => p ++ sep ++ join sep rest
  end.

(** ** Regular expressions

    The fragment of ECMAScript patterns the route uses: character classes,
    concatenation and [+], matched against the whole input (the pattern is
    anchored with [^] and [$] and carries no flag). [test] decides membership
    by derivatives; [matches] is the language of a pattern. *)
Module Regex.

Inductive regex : Type :=
| Void
| Eps
| Class (p : N -> bool)
| Seq (r1 r2 : regex)
| Alt (r1 r2 : regex)
| Star (r : regex).

(** [r+] *)
Definition Plus (r : regex) : regex := Seq r (Star r).

Inductive matches : regex -> jsstring -> Prop :=
| MEps : matches Eps []
| MClass p c : p c = true -> matches (Class p) [c]
| MSeq r1 r2 s1 s2 :
    matches r1 s1 -> matches r2 s2 -> matches (Seq r1 r2) (s1 ++ s2)
| MAltL r1 r2 s : matches r1 s -> matches (Alt r1 r2) s
| MAltR r1 r2 s : matches r2 s -> matches (Alt r1 r2) s
| MStarNil r : matches (Star r) []
| MStarApp r s1 s2 :
    matches r s1 -> matches (Star r) s2 -> matches (Star r) (s1 ++ s2).

Fixpoint nullable (r : regex) : bool :=
  match r with
  | Void => false
  | Eps => true
  | Class _ => false
  | Seq r1 r2 => nullable r1 && nullable r2
  | Alt r1 r2 => nullable r1 || nullable r2
  | Star _ => true
  end.

Fixpoint deriv (c : N) (r : regex) : regex :=
  match r with
  | Void => Void
  | Eps => Void
  | Class p => if p c then Eps else Void
  | Seq r1 r2 =>
      if nullable r1 then Alt (Seq (deriv c r1) r2) (deriv c r2)
      else Seq (deriv c r1) r2
  | Alt r1 r2 => Alt (deriv c r1) (deriv c r2)
  | Star r1 => Seq (deriv c r1) (Star r1)
  end.

(** [/^r$/.test(s)] *)
Fixpoint test (r : regex) (s : jsstring) : bool :=
  match s with
  | [] => nullable r
  | c :: rest => test (deriv c r) rest
  end.

End Regex.

(** ** The e-mail pattern *)

(** [[^\s@]] *)
Definition notSpaceNorAt (c : N) : bool := negb (isWhiteSpace c || (c =? 64)).

Definition isChar (x : N) (c : N) : bool := c =? x.

(** [/^[^\s@]+@[^\s@]+\.[^\s@]+$/] *)
Definition emailRegex : Regex.regex :=
  Regex.Seq (Regex.Plus (Regex.Class notSpaceNorAt))
    (Regex.Seq (Regex.Class (isChar 64))
       (Regex.Seq (Regex.Plus (Regex.Class notSpaceNorAt))
          (Regex.Seq (Regex.Class (isChar 46))
             (Regex.Plus (Regex.Class notSpaceNorAt))))).

Definition isValidEmail (email : jsstring) : bool := Regex.test emailRegex email.

(** The shape the pattern describes, in words: a non-empty run of code units
    that are neither white space nor [@], an [@], another such run, a dot, and
    a third such run. *)
Definition email_shape (s : jsstring) : Prop :=
  exists l d t : jsstring,
    s = l ++ [64] ++ d ++ [46] ++ t
    /\ l <> [] /\ d <> [] /\ t <> []
    /\ Forall (fun c => notSpaceNorAt c = true) l
    /\ Forall (fun c => notSpaceNorAt c = true) d
    /\ Forall (fun c => notSpaceNorAt c = true) t.

(** ** Values *)

(** What [JSON.parse] produces. A number is an IEEE-754 double; an object is
    a finite map from property names to values. *)
Inductive json : Type :=
| JNull
| JBool (b : bool)
| JNumber (x : spec_float)
| JString (s : jsstring)
| JArray (items : list json)
| JObject (props : gmap (list N) json).

(** The values the route handles: a JSON value, or [undefined] ([None]) when
    a property read finds nothing. *)
Abbreviation value := (option json).
Abbreviation undefined := (@None json).

(** What a [throw] or a rejected promise carries: an instance of [Error] with
    its [message], or any other value. *)
Inductive thrown : Type :=
| ErrorInstance (message : jsstring)
| NonError (v : value).

(** The outcome of an operation that can raise. *)
Inductive completion (A : Type) : Type :=
| Normal (a : A)
| Throw (e : thrown).
Arguments Normal {A} a.
Arguments Throw {A} e.

#[global] Instance completion_ret : MRet completion := @Normal.

#[global] Instance completion_bind : MBind completion :=
  fun A B (f : A -> completion B) (c : completion A) =>
    match c with
    | Normal a => f a
    | Throw e => Throw e
    end.

(** [a || b] on two conditions, the second evaluated only when the first is
    false. *)
Definition orElse (a b : completion bool) : completion bool :=
  a ≫= (fun x : bool => if x then Normal true else b).
Notation "a '|||' b" := (orElse a b) (at level 50, left associativity).

(** A [TypeError] raised by the engine (messages as V8 words them). *)
Definition TypeError {A : Type} (msg : string) : completion A :=
  Throw (ErrorInstance (lit msg)).

(** ToBoolean *)
Definition truthy (v : value) : bool :=
  match v with
  | None => false
  | Some JNull => false
  | Some (JBool b) => b
  | Some (JNumber x) =>
      match x with
      | S754_zero _ => false
      | S754_nan => false
      | _ => true
      end
  | Some (JString s) => negb (str_eqb s [])
  | Some (JArray _) => true
  | Some (JObject _) => true
  end.

(** [typeof v] *)
Definition typeof (v : value) : jsstring :=
  match v with
  | None => lit "undefined"
  | Some JNull => lit "object"
  | Some (JBool _) => lit "boolean"
  | Some (JNumber _) => lit "number"
  | Some (JString _) => lit "string"
  | Some (JArray _) => lit "object"
  | Some (JObject _) => lit "object"
  end.

(** [v === s] for a string [s]: no coercion, only an equal string is equal. *)
Definition strictEqualsString (v : value) (s : jsstring) : bool :=
  match v with
  | Some (JString t) => str_eqb t s
  | _ => false
  end.

(** [arr.includes(v)] on an array of strings (SameValueZero comparison). *)
Definition includes (arr : list jsstring) (v : value) : bool :=
  existsb (strictEqualsString v) arr.

(** [o.key] for the property names this route reads ([formType], [name],
    [email], [phone], [message], [product], [mobile]): none of them is an
    array index or [length], and none is defined on [Object.prototype],
    [Array.prototype] or the wrapper prototypes, so only an own property of a
    parsed object can answer. Reading from [null] or [undefined] raises. *)
Definition Get (o : value) (key : string) : completion value :=
  match o with
  | None =>
      TypeError ("Cannot read properties of undefined (reading '" ++ key ++ "')")
  | Some JNull =>
      TypeError ("Cannot read properties of null (reading '" ++ key ++ "')")
  | Some (JObject props) => Normal (props !! lit key)
  | Some _ => Normal undefined
  end.

(** [v.trim()]: only a string has the method. *)
Definition callTrim (v : value) : completion jsstring :=
  match v with
  | Some (JString s) => Normal (trim s)
  | None => TypeError "Cannot read properties of undefined (reading 'trim')"
  | Some JNull => TypeError "Cannot read properties of null (reading 'trim')"
  | Some _ => TypeError "trim is not a function"
  end.

(** [v.replace(/\n/g, by)]: only a string has the method. *)
Definition callReplaceNewlines (v : value) (by_ : jsstring)
  : completion jsstring :=
  match v with
  | Some (JString s) => Normal (replace_newlines by_ s)
  | None => TypeError "Cannot read properties of undefined (reading 'replace')"
  | Some JNull => TypeError "Cannot read properties of null (reading 'replace')"
  | Some _ => TypeError "replace is not a function"
  end.

(** [Number::toString] of the host engine, which the route does not define. *)
Class NumberPrinter : Type := numberToString : spec_float -> jsstring.

(** ToString on a parsed value. An array joins the conversions of its
    elements with a comma, [null] elements giving the empty string. A plain
    object answers ["[object Object]"] through [Object.prototype.toString],
    unless the payload gave it an own [toString] property: that property is
    not callable, [valueOf] then yields no primitive, and the conversion
    raises. The engine converts nested arrays by nested calls and its call
    stack bounds their depth (a [RangeError] beyond some thousands of
    levels); that bound is no part of this definition, and what is stated
    below of an array is stated of the result of its conversion. *)
Fixpoint ToStringJson `{NumberPrinter} (j : json) : completion jsstring :=
  match j with
  | JNull => Normal (lit "null")
  | JBool b => Normal (if b then lit "true" else lit "false")
  | JNumber x => Normal (numberToString x)
  | JString s => Normal s
  | JArray items =>
      let element (x : json) : completion jsstring :=
        match x with
        | JNull => Normal []
        | _ => ToStringJson x
        end in
      (fix joinItems (l : list json) : completion jsstring :=
         match l with
         | [] => Normal []
         | x :: rest =>
             match rest with
             | [] => element x
             | _ =>
                 a ← element x;
                 b ← joinItems rest;
                 Normal (a ++ lit "," ++ b)
             end
         end) items
  | JObject props =>
      match props !! lit "toString" with
      | Some _ => TypeError "Cannot convert object to primitive value"
      | None => Normal (lit "[object Object]")
      end
  end.

(** [`${v}`] *)
Definition ToString `{NumberPrinter} (v : value) : completion jsstring :=
  match v with
  | None => Normal (lit "undefined")
  | Some j => ToStringJson j
  end.

(** [v as string], where the control flow has established
    [typeof v === 'string']. *)
Definition asString (v : value) : jsstring :=
  match v with
  | Some (JString s) => s
  | _ => []
  end.

(** A template literal, line by line as it is laid out in the source: the
    lines are joined by the line feeds between them. *)
Definition template (lines : list jsstring) : jsstring := join [LF] lines.

(** ** Validation *)

Record ValidationResult : Type := {
  valid : bool;
  error : option jsstring
}.

Definition accepted : ValidationResult := {| valid := true; error := None |}.

Definition rejected (msg : jsstring) : ValidationResult :=
  {| valid := false; error := Some msg |}.

Definition VALID_PRODUCTS : list jsstring :=
  [lit "ARCHITECT"; lit "LANDMARK"; lit "SPOTLIGHT"; lit "FUNDAMENTALS"].

Definition FORM_TYPES : list jsstring :=
  [lit "contact"; lit "support"; lit "quote"].

(** [!v || typeof v !== 'string' || v.trim() === ''] *)
Definition blankField (v : value) : completion bool :=
  Normal (negb (truthy v))
  ||| Normal (negb (str_eqb (typeof v) (lit "string")))
  ||| (t ← callTrim v; Normal (str_eqb t [])).

Definition validateFormData (data : value) : completion ValidationResult :=
  if negb (truthy data) || negb (str_eqb (typeof data) (lit "object")) then
    Normal (rejected (lit "Invalid request data"))
  else
    let formData := data in
    formType ← Get formData "formType";
    if negb (truthy formType) then
      Normal (rejected (lit "formType is required"))
    else if negb (includes FORM_TYPES formType) then
      Normal (rejected (lit "Invalid formType. Must be contact, support, or quote"))
    else
      name ← Get formData "name";
      noName ← blankField name;
      if (noName : bool) then Normal (rejected (lit "name is required"))
      else
        email ← Get formData "email";
        noEmail ←
          Normal (negb (truthy email))
          ||| Normal (negb (str_eqb (typeof email) (lit "string")))
          ||| Normal (negb (isValidEmail (asString email)));
        if (noEmail : bool) then Normal (rejected (lit "Valid email is required"))
        else
          let contactOrSupport :=
            strictEqualsString formType (lit "contact")
            || strictEqualsString formType (lit "support") in
          failure ←
            (if contactOrSupport then
               phone ← Get formData "phone";
               noPhone ← blankField phone;
               if (noPhone : bool) then
                 Normal (Some (lit "phone is required for contact and support forms"))
               else
                 message ← Get formData "message";
                 noMessage ← blankField message;
                 if (noMessage : bool) then
                   Normal (Some (lit "message is required for contact and support forms"))
                 else Normal None
             else Normal None);
          match failure with
          | Some msg => Normal (rejected msg)
          | None =>
              if strictEqualsString formType (lit "quote") then
                product ← Get formData "product";
                noProduct ← blankField product;
                if (noProduct : bool) then
                  Normal (rejected (lit "product is required for quote form"))
                else if negb (includes VALID_PRODUCTS product) then
                  Normal (rejected (lit "product must be one of: "
                                      ++ join (lit ", ") VALID_PRODUCTS))
                else Normal accepted
              else Normal accepted
          end.

(** ** Formatting *)

Record EmailContent : Type := {
  subject : jsstring;
  html : jsstring;
  text : jsstring
}.

(** [`${data.key}`] *)
Definition interpolate `{NumberPrinter} (data : value) (key : string)
  : completion jsstring :=
  v ← Get data key; ToString v.

(** The two bodies of a contact or support message, which differ in their
    heading only. *)
Definition messageBodies `{NumberPrinter} (heading : string) (data : value)
  : completion (jsstring * jsstring) :=
  hName ← interpolate data "name";
  hEmail ← interpolate data "email";
  hPhone ← interpolate data "phone";
  message ← Get data "message";
  hMessage ← callReplaceNewlines message (lit "<br>");
  let html := template
    [ [];
      lit "      <h2>" ++ lit heading ++ lit "</h2>";
      lit "      <p><strong>Name:</strong> " ++ hName ++ lit "</p>";
      lit "      <p><strong>Email:</strong> " ++ hEmail ++ lit "</p>";
      lit "      <p><strong>Phone:</strong> " ++ hPhone ++ lit "</p>";
      lit "      <p><strong>Message:</strong></p>";
      lit "      <p>" ++ hMessage ++ lit "</p>";
      lit "    " ] in
  tName ← interpolate data "name";
  tEmail ← interpolate data "email";
  tPhone ← interpolate data "phone";
  tMessage ← interpolate data "message";
  let text := template
    [ [];
      lit heading;
      [];
      lit "Name: " ++ tName;
      lit "Email: " ++ tEmail;
      lit "Phone: " ++ tPhone;
      lit "Message: " ++ tMessage;
      lit "    " ] in
  Normal (html, text).

Definition formatEmailContent `{NumberPrinter} (data : value)
  : completion EmailContent :=
  formType ← Get data "formType";
  if strictEqualsString formType (lit "contact") then
    sName ← interpolate data "name";
    bodies ← messageBodies "New Contact Form Submission" data;
    Normal {| subject := lit "New Contact Form Submission - " ++ sName;
              html := fst bodies;
              text := snd bodies |}
  else if strictEqualsString formType (lit "support") then
    sName ← interpolate data "name";
    bodies ← messageBodies "New Support Request" data;
    Normal {| subject := lit "New Support Request - " ++ sName;
              html := fst bodies;
              text := snd bodies |}
  else if strictEqualsString formType (lit "quote") then
    sName ← interpolate data "name";
    sProduct ← interpolate data "product";
    hName ← interpolate data "name";
    hEmail ← interpolate data "email";
    hMobileTest ← Get data "mobile";
    hMobile ←
      (if truthy hMobileTest then
         m ← interpolate data "mobile";
         Normal (lit "<p><strong>Mobile:</strong> " ++ m ++ lit "</p>")
       else Normal []);
    hProduct ← interpolate data "product";
    tName ← interpolate data "name";
    tEmail ← interpolate data "email";
    tMobileTest ← Get data "mobile";
    tMobile ←
      (if truthy tMobileTest then
         m ← interpolate data "mobile";
         Normal (lit "Mobile: " ++ m ++ [LF])
       else Normal []);
    tProduct ← interpolate data "product";
    Normal {| subject := lit "New Quote Request - " ++ sName ++ lit " - " ++ sProduct;
              html := template
                [ [];
                  lit "      <h2>New Quote Request</h2>";
                  lit "      <p><strong>Name:</strong> " ++ hName ++ lit "</p>";
                  lit "      <p><strong>Email:</strong> " ++ hEmail ++ lit "</p>";
                  lit "      " ++ hMobile;
                  lit "      <p><strong>Product:</strong> " ++ hProduct ++ lit "</p>";
                  lit "    " ];
              text := template
                [ [];
                  lit "New Quote Request";
                  [];
                  lit "Name: " ++ tName;
                  lit "Email: " ++ tEmail;
                  tMobile ++ lit "Product: " ++ tProduct;
                  lit "    " ] |}
  else
    Normal {| subject := []; html := []; text := [] |}.

(** ** CORS *)

(** The part of [process.env] the route reads when serving. *)
Record ProcessEnv : Type := {
  NODE_ENV : option jsstring
}.

(** A header record, in the order the source lists the keys. *)
Definition Headers : Type := list (jsstring * jsstring).

Definition allowedOrigins : list jsstring :=
  [lit "http://localhost:3000"; lit "https://caduae.com"; lit "https://www.caduae.com"].

(** [origin] is a string or [null] ([None]); [origin && list.includes(origin)]
    is falsy for [null] and for the empty string. *)
Definition getCorsHeaders (env : ProcessEnv) (origin : option jsstring)
  : Headers :=
  let fallback :=
    match NODE_ENV env with
    | Some mode =>
        if str_eqb mode (lit "production") then lit "https://caduae.com"
        else lit "*"
    | None => lit "*"
    end in
  let allowedOrigin :=
    match origin with
    | Some o =>
        if negb (str_eqb o []) && existsb (str_eqb o) allowedOrigins then o
        else fallback
    | None => fallback
    end in
  [ (lit "Access-Control-Allow-Origin", allowedOrigin);
    (lit "Access-Control-Allow-Methods", lit "POST, OPTIONS");
    (lit "Access-Control-Allow-Headers", lit "Content-Type");
    (lit "Access-Control-Max-Age", lit "86400") ].

(** [headers[key]] *)
Fixpoint header (key : jsstring) (h : Headers) : option jsstring :=
  match h with
  | [] => None
  | (k, v) :: rest => if str_eqb k key then Some v else header key rest
  end.

(** ** The handlers *)

Record NextRequest : Type := {
  originHeader : option jsstring
}.

Record ResponseBody : Type := {
  status : jsstring;
  message : jsstring
}.

Record NextResponse : Type := {
  httpStatus : N;
  responseHeaders : Headers;
  responseBody : option ResponseBody
}.

(** [NextResponse.json(body, { status, headers })]: the response carries the
    headers it is given, none of which names a content type in this route,
    and the content type of JSON, which the constructor adds. *)
Definition NextResponse_json (body : ResponseBody) (code : N) (h : Headers)
  : NextResponse :=
  {| httpStatus := code;
     responseHeaders := h ++ [(lit "content-type", lit "application/json")];
     responseBody := Some body |}.

(** The argument of [transporter.sendMail]. *)
Record MailOptions : Type := {
  from : jsstring;
  to : jsstring;
  mailSubject : jsstring;
  mailHtml : jsstring;
  mailText : jsstring;
  replyTo : value
}.

(** An asynchronous handler, as the tree of its interactions with the
    outside: it returns or raises, or it awaits the parsed request body or
    the relay's [sendMail] and resumes with how that promise settled, or it
    writes to the error log and goes on. *)
Inductive async (A : Type) : Type :=
| Return (a : A)
| Raise (e : thrown)
| AwaitRequestJson (k : completion json -> async A)
| AwaitSendMail (m : MailOptions) (k : completion unit -> async A)
| ConsoleError (label : jsstring) (e : thrown) (k : async A).
Arguments Return {A} a.
Arguments Raise {A} e.
Arguments AwaitRequestJson {A} k.
Arguments AwaitSendMail {A} m k.
Arguments ConsoleError {A} label e k.

Fixpoint async_bind {A B : Type} (f : A -> async B) (p : async A) : async B :=
  match p with
  | Return a => f a
  | Raise e => Raise e
  | AwaitRequestJson k => AwaitRequestJson (fun o => async_bind f (k o))
  | AwaitSendMail m k => AwaitSendMail m (fun o => async_bind f (k o))
  | ConsoleError l e k => ConsoleError l e (async_bind f k)
  end.

#[global] Instance async_mret : MRet async := @Return.
#[global] Instance async_mbind : MBind async := @async_bind.

(** [try { body } catch (error) { handler }] *)
Fixpoint tryCatch {A : Type} (body : async A) (handler : thrown -> async A)
  : async A :=
  match body with
  | Return a => Return a
  | Raise e => handler e
  | AwaitRequestJson k => AwaitRequestJson (fun o => tryCatch (k o) handler)
  | AwaitSendMail m k => AwaitSendMail m (fun o => tryCatch (k o) handler)
  | ConsoleError l e k => ConsoleError l e (tryCatch k handler)
  end.

(** A synchronous computation inside an asynchronous function. *)
Definition sync {A : Type} (c : completion A) : async A :=
  match c with
  | Normal a => Return a
  | Throw e => Raise e
  end.

(** [await p]: resume with the value, or raise the rejection. *)
Definition settle {A : Type} (o : completion A) : async A := sync o.

(** [await request.json()] *)
Definition awaitRequestJson : async json := AwaitRequestJson settle.

(** [await transporter.sendMail(options)] *)
Definition awaitSendMail (options : MailOptions) : async unit :=
  AwaitSendMail options settle.

(** [a || b] on a string that may be missing. *)
Definition orString (a : option jsstring) (b : jsstring) : jsstring :=
  match a with
  | Some s => if str_eqb s [] then b else s
  | None => b
  end.


Definition POST `{NumberPrinter} (env : ProcessEnv) (request : NextRequest)
  : async NextResponse :=
  let origin := originHeader request in
  let corsHeaders := getCorsHeaders env origin in
  tryCatch
    (body ← awaitRequestJson;
     validation ← sync (validateFormData (Some body));
     if negb (valid validation) then
       Return (NextResponse_json
                 {| status := lit "error";
                    message := orString (error validation) (lit "Validation failed") |}
                 400 corsHeaders)
     else
       let formData := Some body in
       content ← sync (formatEmailContent formData);
       email ← sync (Get formData "email");
       _ ← awaitSendMail
             {| from := lit "noreply@caduae.com";
                to := lit "info@caduae.com";
                mailSubject := subject content;
                mailHtml := html content;
                mailText := text content;
                replyTo := email |};
       Return (NextResponse_json
                 {| status := lit "success";
                    message := lit "Thank you! Your message has been sent successfully." |}
                 200 corsHeaders))
    (fun error =>
       ConsoleError (lit "Error sending email:") error
         (let errorMessage :=
            match error with
            | ErrorInstance m => m
            | NonError _ =>
                lit "An error occurred while sending your message. Please try again later."
            end in
          Return (NextResponse_json
                    {| status := lit "error"; message := errorMessage |}
                    500 corsHeaders))).

(** ** Running a handler *)

(** What the outside does during one request: how the body parses, and how
    the relay answers a message. *)
Record World : Type := {
  requestJson : completion json;
  relay : MailOptions -> completion unit
}.

(** What a run leaves behind. *)
Inductive event : Type :=
| SentMail (m : MailOptions)
| Logged (label : jsstring) (e : thrown).

Fixpoint run {A : Type} (w : World) (p : async A)
  : list event * completion A :=
  match p with
  | Return a => ([], Normal a)
  | Raise e => ([], Throw e)
  | AwaitRequestJson k => run w (k (requestJson w))
  | AwaitSendMail m k =>
      let '(evs, r) := run w (k (relay w m)) in (SentMail m :: evs, r)
  | ConsoleError l e k =>
      let '(evs, r) := run w k in (Logged l e :: evs, r)
  end.

Definition isSentMail (e : event) : bool :=
  match e with
  | SentMail _ => true
  | Logged _ _ => false
  end.

(** How many times a run invoked the relay. *)
Definition relayCalls (evs : list event) : nat :=
  length (List.filter isSentMail evs).

(** ** The validation rules, as the specification lists them *)

(** The field of a payload, [undefined] when the payload is no object or has
    no such field. *)
Definition field (data : value) (key : string) : value :=
  match data with
  | Some (JObject props) => props !! lit key
  | _ => undefined
  end.

(** A non-null object: what [JSON.parse] gives for [{...}] and for [[...]]. *)
Definition isNonNullObject (data : value) : bool :=
  match data with
  | Some (JObject _) => true
  | Some (JArray _) => true
  | _ => false
  end.

(** A string that is not empty once trimmed. *)
Definition isNonBlankString (v : value) : bool :=
  match v with
  | Some (JString s) => negb (str_eqb (trim s) [])
  | _ => false
  end.

(** A string that matches the e-mail pattern. *)
Definition isEmailString (v : value) : bool :=
  match v with
  | Some (JString s) => isValidEmail s
  | _ => false
  end.

(** A string that is one of the given choices. *)
Definition isOneOf (choices : list jsstring) (v : value) : bool :=
  match v with
  | Some (JString s) => existsb (str_eqb s) choices
  | _ => false
  end.

Definition formTypeIs (t : string) (data : value) : bool :=
  isOneOf [lit t] (field data "formType").

(** A rule: the payloads it concerns, what it demands of them, and the
    reason reported when the demand is not met. *)
Record rule : Type := {
  concerns : value -> bool;
  demand : value -> bool;
  reason : jsstring
}.

Definition everyPayload (_ : value) : bool := true.

Definition contactOrSupport (data : value) : bool :=
  formTypeIs "contact" data || formTypeIs "support" data.

(** The rules in their fixed order. A field is present when it holds a value
    JavaScript counts as true. *)
Definition rules : list rule :=
  [ {| concerns := everyPayload;
       demand := isNonNullObject;
       reason := lit "Invalid request data" |};
    {| concerns := everyPayload;
       demand := fun d => truthy (field d "formType");
       reason := lit "formType is required" |};
    {| concerns := everyPayload;
       demand := fun d => isOneOf FORM_TYPES (field d "formType");
       reason := lit "Invalid formType. Must be contact, support, or quote" |};
    {| concerns := everyPayload;
       demand := fun d => isNonBlankString (field d "name");
       reason := lit "name is required" |};
    {| concerns := everyPayload;
       demand := fun d => isEmailString (field d "email");
       reason := lit "Valid email is required" |};
    {| concerns := contactOrSupport;
       demand := fun d => isNonBlankString (field d "phone");
       reason := lit "phone is required for contact and support forms" |};
    {| concerns := contactOrSupport;
       demand := fun d => isNonBlankString (field d "message");
       reason := lit "message is required for contact and support forms" |};
    {| concerns := formTypeIs "quote";
       demand := fun d => isNonBlankString (field d "product");
       reason := lit "product is required for quote form" |};
    {| concerns := formTypeIs "quote";
       demand := fun d => isOneOf VALID_PRODUCTS (field d "product");
       reason := lit "product must be one of: ARCHITECT, LANDMARK, SPOTLIGHT, FUNDAMENTALS" |} ].

Definition violates (data : value) (r : rule) : bool :=
  concerns r data && negb (demand r data).

(** The first rule of the list that the payload violates, if any. *)
Definition firstViolation (data : value) : option rule :=
  List.find (violates data) rules.

(** Checking the rules in order and stopping at the first violation. *)
Definition checkInOrder (data : value) : ValidationResult :=
  match firstViolation data with
  | Some r => rejected (reason r)
  | None => accepted
  end.

(** ** Lines of a text body *)

(** The lines of a text, split at line feeds. *)
Fixpoint lines (s : jsstring) : list jsstring :=
  match s with
  | [] => [[]]
  | c :: rest =>
      if c =? LF then [] :: lines rest
      else
        match lines rest with
        | l :: ls => (c :: l) :: ls
        | [] => [[c]]
        end
  end.

(** [s.startsWith(p)] *)
Fixpoint startsWith (p s : jsstring) : bool :=
  match p, s with
  | [], _ => true
  | _ :: _, [] => false
  | a :: p', b :: s' => (a =? b) && startsWith p' s'
  end.

(** Some line of the text begins with the given label. *)
Definition hasLine (label : jsstring) (s : jsstring) : bool :=
  existsb (startsWith label) (lines s).

(** ** Vocabulary of the statements *)

(** The lines of a text after its first. *)
Definition laterLines (s : jsstring) : list jsstring := tail (lines s).

(** The content of a contact message, with the fields filled in. *)
Definition contactEmail (n e p m : jsstring) : EmailContent :=
  {| subject := lit "New Contact Form Submission - " ++ n;
     html := template
       [ [];
         lit "      <h2>New Contact Form Submission</h2>";
         lit "      <p><strong>Name:</strong> " ++ n ++ lit "</p>";
         lit "      <p><strong>Email:</strong> " ++ e ++ lit "</p>";
         lit "      <p><strong>Phone:</strong> " ++ p ++ lit "</p>";
         lit "      <p><strong>Message:</strong></p>";
         lit "      <p>" ++ replace_newlines (lit "<br>") m ++ lit "</p>";
         lit "    " ];
     text := template
       [ [];
         lit "New Contact Form Submission";
         [];
         lit "Name: " ++ n;
         lit "Email: " ++ e;
         lit "Phone: " ++ p;
         lit "Message: " ++ m;
         lit "    " ] |}.

(** The content of a quote request without a Mobile line. *)
Definition quoteEmailPlain (n e p : jsstring) : EmailContent :=
  {| subject := lit "New Quote Request - " ++ n ++ lit " - " ++ p;
     html := template
       [ [];
         lit "      <h2>New Quote Request</h2>";
         lit "      <p><strong>Name:</strong> " ++ n ++ lit "</p>";
         lit "      <p><strong>Email:</strong> " ++ e ++ lit "</p>";
         lit "      ";
         lit "      <p><strong>Product:</strong> " ++ p ++ lit "</p>";
         lit "    " ];
     text := template
       [ [];
         lit "New Quote Request";
         [];
         lit "Name: " ++ n;
         lit "Email: " ++ e;
         lit "Product: " ++ p;
         lit "    " ] |}.

(** The content of a quote request with a Mobile line showing [m]. *)
Definition quoteEmailMobile (n e m p : jsstring) : EmailContent :=
  {| subject := lit "New Quote Request - " ++ n ++ lit " - " ++ p;
     html := template
       [ [];
         lit "      <h2>New Quote Request</h2>";
         lit "      <p><strong>Name:</strong> " ++ n ++ lit "</p>";
         lit "      <p><strong>Email:</strong> " ++ e ++ lit "</p>";
         lit "      <p><strong>Mobile:</strong> " ++ m ++ lit "</p>";
         lit "      <p><strong>Product:</strong> " ++ p ++ lit "</p>";
         lit "    " ];
     text := template
       [ [];
         lit "New Quote Request";
         [];
         lit "Name: " ++ n;
         lit "Email: " ++ e;
         lit "Mobile: " ++ m;
         lit "Product: " ++ p;
         lit "    " ] |}.

(** The message the handler hands to the relay for a composed content. *)
Definition relayMessage (content : EmailContent) (submitter : value)
  : MailOptions :=
  {| from := lit "noreply@caduae.com";
     to := lit "info@caduae.com";
     mailSubject := subject content;
     mailHtml := html content;
     mailText := text content;
     replyTo := submitter |}.

(** A JSON response [{status, message}] with a status code and headers. *)
Definition jsonResponse (code : N) (st msg : jsstring) (h : Headers)
  : NextResponse :=
  NextResponse_json {| status := st; message := msg |} code h.

Definition successMessage : jsstring :=
  lit "Thank you! Your message has been sent successfully.".

Definition fallbackMessage : jsstring :=
  lit "An error occurred while sending your message. Please try again later.".

(** A value that converts to a string without running into a payload-defined
    [toString]: anything but an object, or an array reaching one. *)
Definition isPrimitive (v : value) : bool :=
  match v with
  | Some (JArray _) => false
  | Some (JObject _) => false
  | _ => true
  end.

(** The content of a support request, with the fields filled in. *)
Definition supportEmail (n e p m : jsstring) : EmailContent :=
  {| subject := lit "New Support Request - " ++ n;
     html := template
       [ [];
         lit "      <h2>New Support Request</h2>";
         lit "      <p><strong>Name:</strong> " ++ n ++ lit "</p>";
         lit "      <p><strong>Email:</strong> " ++ e ++ lit "</p>";
         lit "      <p><strong>Phone:</strong> " ++ p ++ lit "</p>";
         lit "      <p><strong>Message:</strong></p>";
         lit "      <p>" ++ replace_newlines (lit "<br>") m ++ lit "</p>";
         lit "    " ];
     text := template
       [ [];
         lit "New Support Request";
         [];
         lit "Name: " ++ n;
         lit "Email: " ++ e;
         lit "Phone: " ++ p;
         lit "Message: " ++ m;
         lit "    " ] |}.

(** The property names validation reads. *)
Definition validatedFields : list jsstring :=
  [ lit "formType"; lit "name"; lit "email"; lit "phone"; lit "message";
    lit "product" ].

(** The relay messages among the events of a run. *)
Definition sentMails (evs : list event) : list MailOptions :=
  flat_map (fun e => match e with
                     | SentMail m => [m]
                     | Logged _ _ => []
                     end) evs.

(** ** Closed examples *)

(** A stand-in for the engine's number printer in the closed examples below,
    none of which converts a number to a string. *)
Definition examplePrinter : NumberPrinter := fun _ => lit "0".

(** A field [key: v] of an object literal. *)
Definition prop (key : string) (v : json) : jsstring * json := (lit key, v).

(** [{...}] with the given fields. *)
Definition object (fields : list (jsstring * json)) : json :=
  JObject (list_to_map fields).

Definition str (s : string) : json := JString (lit s).

(** Jane's contact submission. *)
Definition exampleContact : json :=
  object [ prop "formType" (str "contact"); prop "name" (str "Jane");
           prop "email" (str "jane@x.com"); prop "phone" (str "123");
           prop "message" (str "Hello") ].

(** Jane's quote request, with the given [mobile]. *)
Definition exampleQuote (mobile : json) : json :=
  object [ prop "formType" (str "quote"); prop "name" (str "Jane");
           prop "email" (str "jane@x.com"); prop "product" (str "LANDMARK");
           prop "mobile" mobile ].

(** The production deployment, and a request from the canonical origin. *)
Definition exampleEnv : ProcessEnv :=
  {| NODE_ENV := Some (lit "production") |}.

Definition exampleRequest : NextRequest :=
  {| originHeader := Some (lit "https://caduae.com") |}.

(** An outside where the body parses to [body] and the relay delivers. *)
Definition deliveringWorld (body : json) : World :=
  {| requestJson := Normal body; relay := fun _ => Normal tt |}.

(** * Properties *)

(** ** Strings *)

Lemma str_eqb_eq (a b : jsstring) : str_eqb a b = true <-> a = b.
Proof. unfold str_eqb. apply bool_decide_eq_true. Qed.

Lemma str_eqb_neq (a b : jsstring) : str_eqb a b = false <-> a <> b.
Proof. unfold str_eqb. apply bool_decide_eq_false. Qed.

Lemma str_eqb_refl (a : jsstring) : str_eqb a a = true.
Proof. by apply str_eqb_eq. Qed.

Lemma existsb_str_eqb (s : jsstring) (l : list jsstring) :
  existsb (str_eqb s) l = true <-> s ∈ l.
Proof.
  rewrite existsb_exists, list_elem_of_In. split.
  - intros (x & Hx & Heq). apply str_eqb_eq in Heq. by subst.
  - intros Hin. exists s. split; [done | apply str_eqb_refl].
Qed.

(** ** The derivative matcher decides the language of a pattern *)

Module RegexFacts.
Import Regex.

Lemma matches_seq_inv (r1 r2 : regex) (s : jsstring) :
  matches (Seq r1 r2) s ->
  exists s1 s2, s = s1 ++ s2 /\ matches r1 s1 /\ matches r2 s2.
Proof. inversion 1; subst; eauto. Qed.

Lemma matches_alt_inv (r1 r2 : regex) (s : jsstring) :
  matches (Alt r1 r2) s -> matches r1 s \/ matches r2 s.
Proof. inversion 1; subst; auto. Qed.

Lemma matches_class_inv (p : N -> bool) (s : jsstring) :
  matches (Class p) s -> exists c, s = [c] /\ p c = true.
Proof. inversion 1; subst; eauto. Qed.

Lemma matches_eps_inv (s : jsstring) : matches Eps s -> s = [].
Proof. by inversion 1. Qed.

Lemma matches_void_inv (s : jsstring) : ~ matches Void s.
Proof. inversion 1. Qed.

Lemma nullable_matches (r : regex) : nullable r = true <-> matches r [].
Proof.
  induction r as [| | p | r1 IH1 r2 IH2 | r1 IH1 r2 IH2 | r IH]; simpl.
  - split; [discriminate | intros H; by apply matches_void_inv in H].
  - split; [constructor | done].
  - split; [discriminate |].
    intros H. apply matches_class_inv in H as (c & Hc & _). discriminate.
  - rewrite andb_true_iff, IH1, IH2. split.
    + intros [H1 H2]. apply (MSeq _ _ [] [] H1 H2).
    + intros H. apply matches_seq_inv in H as (s1 & s2 & Heq & H1 & H2).
      symmetry in Heq. apply app_eq_nil in Heq as [-> ->]. done.
  - rewrite orb_true_iff, IH1, IH2. split.
    + intros [H | H]; [by apply MAltL | by apply MAltR].
    + apply matches_alt_inv.
  - split; [constructor | done].
Qed.

Lemma deriv_sound (c : N) (r : regex) :
  forall s, matches (deriv c r) s -> matches r (c :: s).
Proof.
  induction r as [| | p | r1 IH1 r2 IH2 | r1 IH1 r2 IH2 | r IH];
    simpl; intros s Hm.
  - by apply matches_void_inv in Hm.
  - by apply matches_void_inv in Hm.
  - destruct (p c) eqn:Hp; [| by apply matches_void_inv in Hm].
    apply matches_eps_inv in Hm as ->. by constructor.
  - assert (Hseq : forall t, matches (Seq (deriv c r1) r2) t ->
                             matches (Seq r1 r2) (c :: t)).
    { intros t Ht. apply matches_seq_inv in Ht as (s1 & s2 & -> & H1 & H2).
      apply (MSeq r1 r2 (c :: s1) s2); auto. }
    destruct (nullable r1) eqn:Hn; [| by apply Hseq].
    apply matches_alt_inv in Hm as [Hm | Hm]; [by apply Hseq |].
    apply nullable_matches in Hn.
    apply (MSeq r1 r2 [] (c :: s)); auto.
  - apply matches_alt_inv in Hm as [Hm | Hm];
      [apply MAltL | apply MAltR]; auto.
  - apply matches_seq_inv in Hm as (s1 & s2 & -> & H1 & H2).
    apply (MStarApp r (c :: s1) s2); auto.
Qed.

Lemma deriv_complete (r : regex) (w : jsstring) :
  matches r w -> forall c s, w = c :: s -> matches (deriv c r) s.
Proof.
  induction 1 as [| p a Hp | r1 r2 s1 s2 H1 IH1 H2 IH2 | r1 r2 t H IH
                 | r1 r2 t H IH | r | r s1 s2 H1 IH1 H2 IH2];
    intros c s Heq; simpl.
  - discriminate.
  - injection Heq as -> <-. rewrite Hp. constructor.
  - destruct s1 as [| a s1'].
    + simpl in Heq. subst s2.
      apply nullable_matches in H1. rewrite H1.
      apply MAltR. by apply IH2.
    + simpl in Heq. injection Heq as -> <-.
      assert (matches (Seq (deriv c r1) r2) (s1' ++ s2))
        by (constructor; auto).
      destruct (nullable r1); [by apply MAltL | done].
  - apply MAltL. by apply IH.
  - apply MAltR. by apply IH.
  - discriminate.
  - destruct s1 as [| a s1'].
    + simpl in Heq. by apply (IH2 c s).
    + simpl in Heq. injection Heq as -> <-.
      constructor; auto.
Qed.

Lemma test_matches (s : jsstring) :
  forall r, test r s = true <-> matches r s.
Proof.
  induction s as [| c s IH]; intros r; simpl.
  - apply nullable_matches.
  - rewrite IH. split.
    + apply deriv_sound.
    + intros H. by apply (deriv_complete r (c :: s)).
Qed.

Lemma matches_star_class (p : N -> bool) (s : jsstring) :
  matches (Star (Class p)) s <-> Forall (fun c => p c = true) s.
Proof.
  split.
  - remember (Star (Class p)) as r eqn:Hr. intros Hm.
    induction Hm as [| | | | | | r' s1 s2 H1 _ H2 IH2]; try discriminate.
    + constructor.
    + injection Hr as ->.
      apply matches_class_inv in H1 as (c & -> & Hc).
      constructor; auto.
  - induction 1 as [| c s Hc _ IH]; [constructor |].
    apply (MStarApp _ [c] s); [by constructor | done].
Qed.

Lemma matches_plus_class (p : N -> bool) (s : jsstring) :
  matches (Plus (Class p)) s <-> s <> [] /\ Forall (fun c => p c = true) s.
Proof.
  unfold Plus. split.
  - intros H. apply matches_seq_inv in H as (s1 & s2 & -> & H1 & H2).
    apply matches_class_inv in H1 as (c & -> & Hc).
    apply matches_star_class in H2.
    split; [done | by constructor].
  - intros [Hne Hall]. destruct s as [| c s]; [done |].
    inversion Hall; subst.
    apply (MSeq _ _ [c] s); [by constructor | by apply matches_star_class].
Qed.

Lemma matches_char (x : N) (s : jsstring) :
  matches (Class (isChar x)) s <-> s = [x].
Proof.
  split.
  - intros H. apply matches_class_inv in H as (c & -> & Hc).
    unfold isChar in Hc. apply N.eqb_eq in Hc. by subst.
  - intros ->. constructor. unfold isChar. apply N.eqb_refl.
Qed.

End RegexFacts.

Lemma isValidEmail_email_shape (s : jsstring) :
  isValidEmail s = true <-> email_shape s.
Proof.
  unfold isValidEmail, emailRegex, email_shape.
  rewrite RegexFacts.test_matches. split.
  - intros H.
    apply RegexFacts.matches_seq_inv in H as (l & r1 & -> & Hl & H).
    apply RegexFacts.matches_seq_inv in H as (a & r2 & -> & Ha & H).
    apply RegexFacts.matches_seq_inv in H as (d & r3 & -> & Hd & H).
    apply RegexFacts.matches_seq_inv in H as (b & t & -> & Hb & Ht).
    apply RegexFacts.matches_plus_class in Hl as [? ?].
    apply RegexFacts.matches_plus_class in Hd as [? ?].
    apply RegexFacts.matches_plus_class in Ht as [? ?].
    apply RegexFacts.matches_char in Ha as ->.
    apply RegexFacts.matches_char in Hb as ->.
    exists l, d, t. done.
  - intros (l & d & t & -> & Hl & Hd & Ht & Al & Ad & At).
    repeat (apply Regex.MSeq);
      try (by apply RegexFacts.matches_plus_class);
      by apply RegexFacts.matches_char.
Qed.

(** C4. [isValidEmail] accepts a string exactly when it has the shape of the
    pattern [^[^\s@]+@[^\s@]+\.[^\s@]+$]: a non-empty run of code units that
    are neither white space nor [@], then [@], then another such run, then a
    dot, then a third such run. In particular it accepts [a@b.com] and
    rejects [a@b] and [a b@c.com]. *)
Theorem isValidEmail_iff_shape :
  (forall s : jsstring, isValidEmail s = true <-> email_shape s)
  /\ isValidEmail (lit "a@b.com") = true
  /\ isValidEmail (lit "a@b") = false
  /\ isValidEmail (lit "a b@c.com") = false.
Proof. split; [apply isValidEmail_email_shape | by vm_compute]. Qed.

(** ** Validation follows the rules in order *)

Lemma orElse_Normal (a b : bool) : Normal a ||| Normal b = Normal (a || b).
Proof. by destruct a. Qed.

Lemma blankField_spec (v : value) :
  blankField v = Normal (negb (isNonBlankString v)).
Proof.
  destruct v as [[| b | x | s | items | props]|]; try reflexivity.
  - by destruct b.
  - by destruct x.
  - unfold blankField, orElse. simpl.
    destruct (str_eqb s []) eqn:Hs; simpl.
    + apply str_eqb_eq in Hs as ->. reflexivity.
    + by rewrite negb_involutive.
Qed.

Lemma emailCondition_spec (v : value) :
  negb (truthy v) || negb (str_eqb (typeof v) (lit "string"))
    || negb (isValidEmail (asString v))
  = negb (isEmailString v).
Proof.
  destruct v as [[| b | x | s | items | props]|]; try reflexivity.
  - by destruct b.
  - by destruct x.
  - simpl. destruct (str_eqb s []) eqn:Hs; simpl; [| done].
    apply str_eqb_eq in Hs as ->. reflexivity.
Qed.

Lemma includes_isOneOf (l : list jsstring) (v : value) :
  includes l v = isOneOf l v.
Proof. by destruct v as [[]|]; unfold includes; simpl; try by induction l. Qed.

Lemma strictEqualsString_isOneOf (v : value) (s : jsstring) :
  strictEqualsString v s = isOneOf [s] v.
Proof. destruct v as [[]|]; simpl; try done. by rewrite orb_false_r. Qed.

(** Case analysis on the conditions a goal has been generalised over, closing
    each branch as soon as the outcome is decided. *)
Ltac decide_conditions := repeat (intros []; try (intros; reflexivity)).

Lemma validateFormData_object (props : gmap (list N) json) :
  validateFormData (Some (JObject props))
  = Normal (checkInOrder (Some (JObject props))).
Proof.
  unfold validateFormData, checkInOrder, firstViolation, rules.
  cbn [truthy typeof negb orb].
  replace (str_eqb (lit "object") (lit "object")) with true by reflexivity.
  cbn [negb orb Get mbind completion_bind].
  rewrite !blankField_spec, !orElse_Normal, emailCondition_spec,
    !includes_isOneOf, !strictEqualsString_isOneOf.
  unfold violates, contactOrSupport, formTypeIs, everyPayload.
  cbn [find concerns demand reason field andb isNonNullObject negb].
  generalize
    (truthy (props !! lit "formType"))
    (isOneOf FORM_TYPES (props !! lit "formType"))
    (isNonBlankString (props !! lit "name"))
    (isEmailString (props !! lit "email"))
    (isOneOf [lit "contact"] (props !! lit "formType"))
    (isOneOf [lit "support"] (props !! lit "formType"))
    (isOneOf [lit "quote"] (props !! lit "formType"))
    (isNonBlankString (props !! lit "phone"))
    (isNonBlankString (props !! lit "message"))
    (isNonBlankString (props !! lit "product"))
    (isOneOf VALID_PRODUCTS (props !! lit "product")).
  decide_conditions.
Qed.

Lemma validateFormData_checkInOrder (data : value) :
  validateFormData data = Normal (checkInOrder data).
Proof.
  destruct data as [[| b | x | s | items | props]|]; try reflexivity.
  - by destruct b.
  - by destruct x.
  - unfold validateFormData. cbn [typeof].
    replace (str_eqb (lit "string") (lit "object")) with false by reflexivity.
    by rewrite orb_true_r.
  - apply validateFormData_object.
Qed.

(** C1. For every payload, [validateFormData] returns what checking the rules
    in their fixed order gives: the reason of the first rule the payload
    violates (non-null object, [formType] present, [formType] among the three
    form types, [name], [email], then the checks of the form type), and
    acceptance when it violates none. It never raises. *)
Theorem validateFormData_first_violation (data : value) :
  validateFormData data =
    Normal match firstViolation data with
           | Some r => rejected (reason r)
           | None => accepted
           end.
Proof.
  change (validateFormData data = Normal (checkInOrder data)).
  destruct data as [[| b | x | s | items | props]|].
  - reflexivity.
  - by destruct b.
  - by destruct x.
  - apply validateFormData_checkInOrder.
  - reflexivity.
  - apply validateFormData_object.
  - reflexivity.
Qed.

(** C9. A payload that is a JSON array is not turned away as a non-object:
    the first check lets it through, the read of [formType] finds nothing,
    and the reason is [formType is required]. *)
Theorem validateFormData_array (items : list json) :
  validateFormData (Some (JArray items))
    = Normal (rejected (lit "formType is required"))
  /\ validateFormData (Some (JArray items))
    <> Normal (rejected (lit "Invalid request data"))
  /\ isNonNullObject (Some (JArray items)) = true.
Proof. repeat split. discriminate. Qed.

(** What an accepted payload looks like. *)
Lemma accepted_inv (data : value) :
  validateFormData data = Normal accepted ->
  isNonNullObject data = true
  /\ isOneOf FORM_TYPES (field data "formType") = true
  /\ isNonBlankString (field data "name") = true
  /\ isEmailString (field data "email") = true
  /\ (contactOrSupport data = true ->
      isNonBlankString (field data "phone") = true
      /\ isNonBlankString (field data "message") = true)
  /\ (formTypeIs "quote" data = true ->
      isNonBlankString (field data "product") = true
      /\ isOneOf VALID_PRODUCTS (field data "product") = true).
Proof.
  rewrite validateFormData_checkInOrder.
  unfold checkInOrder, firstViolation, rules, violates, everyPayload.
  cbn [find concerns demand reason andb].
  destruct (isNonNullObject data); [| discriminate].
  destruct (truthy (field data "formType")); [| discriminate].
  destruct (isOneOf FORM_TYPES (field data "formType")); [| discriminate].
  destruct (isNonBlankString (field data "name")); [| discriminate].
  destruct (isEmailString (field data "email")); [| discriminate].
  destruct (contactOrSupport data);
    destruct (isNonBlankString (field data "phone"));
    destruct (isNonBlankString (field data "message"));
    try discriminate;
    destruct (formTypeIs "quote" data);
    destruct (isNonBlankString (field data "product"));
    destruct (isOneOf VALID_PRODUCTS (field data "product"));
    try discriminate; intros _; repeat split; auto; discriminate.
Qed.

Lemma validateFormData_cases (data : value) :
  validateFormData data = Normal accepted
  \/ exists r, firstViolation data = Some r
               /\ validateFormData data = Normal (rejected (reason r)).
Proof.
  rewrite validateFormData_checkInOrder. unfold checkInOrder.
  destruct (firstViolation data) as [r |]; eauto.
Qed.

(** ** CORS headers *)

Lemma allowedOrigin_member (o : jsstring) :
  negb (str_eqb o []) && existsb (str_eqb o) allowedOrigins = true
  <-> o ∈ allowedOrigins.
Proof.
  rewrite andb_true_iff, existsb_str_eqb. split; [by intros [_ ?] |].
  intros Hin. split; [| done].
  apply negb_true_iff, str_eqb_neq. intros ->.
  apply list_elem_of_In in Hin. simpl in Hin. intuition discriminate.
Qed.

(** C8. Whatever the origin, [getCorsHeaders] answers
    [Access-Control-Allow-Origin] with the origin itself when it is one of
    the three allowed origins, with [https://caduae.com] when it is not and
    the deployment mode is production, and with [*] otherwise; and it always
    attaches [Access-Control-Allow-Methods: POST, OPTIONS],
    [Access-Control-Allow-Headers: Content-Type] and
    [Access-Control-Max-Age: 86400], and nothing else. *)
Theorem getCorsHeaders_spec (env : ProcessEnv) (origin : option jsstring) :
  let h := getCorsHeaders env origin in
  (forall o, origin = Some o -> o ∈ allowedOrigins ->
     header (lit "Access-Control-Allow-Origin") h = Some o)
  /\ ((forall o, origin = Some o -> o ∉ allowedOrigins) ->
      NODE_ENV env = Some (lit "production") ->
      header (lit "Access-Control-Allow-Origin") h
      = Some (lit "https://caduae.com"))
  /\ ((forall o, origin = Some o -> o ∉ allowedOrigins) ->
      NODE_ENV env <> Some (lit "production") ->
      header (lit "Access-Control-Allow-Origin") h = Some (lit "*"))
  /\ header (lit "Access-Control-Allow-Methods") h = Some (lit "POST, OPTIONS")
  /\ header (lit "Access-Control-Allow-Headers") h = Some (lit "Content-Type")
  /\ header (lit "Access-Control-Max-Age") h = Some (lit "86400")
  /\ map fst h =
      [ lit "Access-Control-Allow-Origin"; lit "Access-Control-Allow-Methods";
        lit "Access-Control-Allow-Headers"; lit "Access-Control-Max-Age" ]
  /\ allowedOrigins =
      [ lit "http://localhost:3000"; lit "https://caduae.com";
        lit "https://www.caduae.com" ].
Proof.
  assert (Hfallback : (forall o, origin = Some o -> o ∉ allowedOrigins) ->
     header (lit "Access-Control-Allow-Origin") (getCorsHeaders env origin)
     = Some match NODE_ENV env with
            | Some mode => if str_eqb mode (lit "production")
                           then lit "https://caduae.com" else lit "*"
            | None => lit "*"
            end).
  { intros Hout. unfold getCorsHeaders.
    destruct origin as [o |]; [| reflexivity].
    destruct (negb (str_eqb o []) && existsb (str_eqb o) allowedOrigins)
      eqn:Hin; [| reflexivity].
    apply allowedOrigin_member in Hin. by destruct (Hout o eq_refl). }
  cbv zeta. repeat split.
  - intros o -> Hin. apply allowedOrigin_member in Hin.
    unfold getCorsHeaders. rewrite Hin. reflexivity.
  - intros Hout Hprod. rewrite (Hfallback Hout), Hprod. reflexivity.
  - intros Hout Hprod. rewrite (Hfallback Hout).
    destruct (NODE_ENV env) as [mode |]; [| reflexivity].
    destruct (str_eqb mode (lit "production")) eqn:Hm; [| reflexivity].
    apply str_eqb_eq in Hm. by subst.
Qed.

(** The production deployment answering a request from the canonical
    origin. *)
Lemma getCorsHeaders_spec_witness :
  lit "https://caduae.com" ∈ allowedOrigins
  /\ header (lit "Access-Control-Allow-Origin")
       (getCorsHeaders {| NODE_ENV := Some (lit "production") |}
          (Some (lit "https://caduae.com")))
     = Some (lit "https://caduae.com").
Proof.
  assert (Hin : lit "https://caduae.com" ∈ allowedOrigins).
  { apply list_elem_of_In. simpl. auto. }
  split; [exact Hin |].
  destruct (getCorsHeaders_spec {| NODE_ENV := Some (lit "production") |}
              (Some (lit "https://caduae.com"))) as [Hecho _].
  exact (Hecho _ eq_refl Hin).
Defined.

(** ** Lines of a text *)

Lemma lines_cons (s : jsstring) : exists l ls, lines s = l :: ls.
Proof.
  destruct s as [| c s]; simpl; [eauto |].
  destruct (c =? LF); [eauto |]. destruct (lines s); eauto.
Qed.

Lemma lines_first_later (s : jsstring) :
  lines s = hd [] (lines s) :: laterLines s.
Proof. unfold laterLines. by destruct (lines_cons s) as (l & ls & ->). Qed.

Lemma lines_app_LF (a b : jsstring) :
  lines (a ++ LF :: b) = lines a ++ lines b.
Proof.
  induction a as [| c a IH]; [reflexivity |].
  simpl. destruct (c =? LF); [by rewrite IH |].
  rewrite IH. by destruct (lines_cons a) as (l & ls & ->).
Qed.

Lemma lines_prefix (q s : jsstring) :
  Forall (fun c => c <> LF) q ->
  lines (q ++ s) = (q ++ hd [] (lines s)) :: laterLines s.
Proof.
  induction 1 as [| c q Hc _ IH]; [apply lines_first_later |].
  simpl. apply N.eqb_neq in Hc. by rewrite Hc, IH.
Qed.

Lemma lines_no_LF (q : jsstring) :
  Forall (fun c => c <> LF) q -> lines q = [q].
Proof.
  intros H. rewrite <- (app_nil_r q) at 1.
  rewrite (lines_prefix q [] H). simpl. by rewrite app_nil_r.
Qed.

Lemma lines_template (l : jsstring) (ls : list jsstring) :
  lines (template (l :: ls)) = concat (map lines (l :: ls)).
Proof.
  unfold template. revert l. induction ls as [| l' ls IH]; intros l.
  - simpl. by rewrite app_nil_r.
  - change (join [LF] (l :: l' :: ls)) with (l ++ LF :: join [LF] (l' :: ls)).
    rewrite lines_app_LF, IH. reflexivity.
Qed.

Lemma existsb_concat {A : Type} (f : A -> bool) (ll : list (list A)) :
  existsb f (concat ll) = existsb (existsb f) ll.
Proof.
  induction ll as [| l ll IH]; [reflexivity |].
  simpl. by rewrite existsb_app, IH.
Qed.

Lemma hasLine_template (label l : jsstring) (ls : list jsstring) :
  hasLine label (template (l :: ls)) = existsb (hasLine label) (l :: ls).
Proof.
  unfold hasLine. rewrite lines_template, existsb_concat.
  generalize (l :: ls). intros ll.
  induction ll as [| x ll IH]; [reflexivity |]. simpl. by rewrite IH.
Qed.

Lemma hasLine_prefix (label q s : jsstring) :
  Forall (fun c => c <> LF) q ->
  hasLine label (q ++ s)
  = startsWith label (q ++ hd [] (lines s))
    || existsb (startsWith label) (laterLines s).
Proof. intros H. unfold hasLine. by rewrite (lines_prefix q s H). Qed.

Lemma no_LF_dec (q : jsstring) :
  forallb (fun c => negb (c =? LF)) q = true -> Forall (fun c => c <> LF) q.
Proof.
  rewrite forallb_forall, List.Forall_forall. intros H c Hc.
  apply H in Hc. apply negb_true_iff in Hc. by apply N.eqb_neq.
Qed.

Lemma isValidEmail_no_LF (e : jsstring) :
  isValidEmail e = true -> Forall (fun c => c <> LF) e.
Proof.
  intros H. apply isValidEmail_email_shape in H.
  destruct H as (l & d & t & -> & _ & _ & _ & Hl & Hd & Ht).
  assert (Hrun : forall r, Forall (fun c => notSpaceNorAt c = true) r ->
                           Forall (fun c => c <> LF) r).
  { intros r Hr. eapply Forall_impl; [exact Hr |].
    intros c Hc ->. discriminate. }
  repeat (apply Forall_app; split); auto; by repeat constructor.
Qed.

Lemma replace_newlines_no_LF (by_ m : jsstring) :
  Forall (fun c => c <> LF) by_ ->
  Forall (fun c => c <> LF) (replace_newlines by_ m).
Proof.
  intros Hby. induction m as [| c m IH]; simpl; [constructor |].
  destruct (c =? LF) eqn:Hc.
  - by apply Forall_app.
  - apply N.eqb_neq in Hc. by constructor.
Qed.

(** ** Fields of an accepted payload *)

Lemma isNonBlankString_inv (v : value) :
  isNonBlankString v = true -> exists s, v = Some (JString s) /\ trim s <> [].
Proof.
  destruct v as [[| | | s | |]|]; try discriminate. simpl.
  intros H. apply negb_true_iff, str_eqb_neq in H. eauto.
Qed.

Lemma isEmailString_inv (v : value) :
  isEmailString v = true ->
  exists s, v = Some (JString s) /\ isValidEmail s = true.
Proof. destruct v as [[| | | s | |]|]; try discriminate. simpl. eauto. Qed.

Lemma isOneOf_inv (l : list jsstring) (v : value) :
  isOneOf l v = true -> exists s, v = Some (JString s) /\ s ∈ l.
Proof.
  destruct v as [[| | | s | |]|]; try discriminate. simpl.
  intros H. apply existsb_str_eqb in H. eauto.
Qed.

Lemma isOneOf_intro (l : list jsstring) (s : jsstring) :
  s ∈ l -> isOneOf l (Some (JString s)) = true.
Proof. intros H. simpl. by apply existsb_str_eqb. Qed.

Lemma accepted_object (data : value) :
  validateFormData data = Normal accepted ->
  exists props, data = Some (JObject props).
Proof.
  intros H. apply accepted_inv in H as (Hobj & Hft & _).
  destruct data as [[| | | | items | props]|]; try discriminate; eauto.
Qed.

Lemma accepted_common (props : gmap (list N) json) :
  validateFormData (Some (JObject props)) = Normal accepted ->
  exists n e,
    props !! lit "name" = Some (JString n) /\ trim n <> []
    /\ props !! lit "email" = Some (JString e) /\ isValidEmail e = true.
Proof.
  intros H. apply accepted_inv in H as (_ & _ & Hn & He & _).
  apply isNonBlankString_inv in Hn as (n & Hn & Hnn).
  apply isEmailString_inv in He as (e & He & Hee).
  exists n, e. done.
Qed.

Lemma accepted_quote (props : gmap (list N) json) :
  validateFormData (Some (JObject props)) = Normal accepted ->
  props !! lit "formType" = Some (JString (lit "quote")) ->
  exists p, props !! lit "product" = Some (JString p) /\ p ∈ VALID_PRODUCTS.
Proof.
  intros H Hft. apply accepted_inv in H as (_ & _ & _ & _ & _ & Hq).
  destruct Hq as [_ Hp].
  { unfold formTypeIs. cbn [field]. by rewrite Hft. }
  by apply isOneOf_inv in Hp.
Qed.

Lemma accepted_message (props : gmap (list N) json) (t : jsstring) :
  validateFormData (Some (JObject props)) = Normal accepted ->
  props !! lit "formType" = Some (JString t) ->
  t = lit "contact" \/ t = lit "support" ->
  exists p m,
    props !! lit "phone" = Some (JString p)
    /\ props !! lit "message" = Some (JString m).
Proof.
  intros H Hft Ht. apply accepted_inv in H as (_ & _ & _ & _ & Hc & _).
  destruct Hc as [Hp Hm].
  { unfold contactOrSupport, formTypeIs. cbn [field]. rewrite Hft.
    destruct Ht as [-> | ->]; reflexivity. }
  apply isNonBlankString_inv in Hp as (p & Hp & _).
  apply isNonBlankString_inv in Hm as (m & Hm & _).
  exists p, m. done.
Qed.

Lemma accepted_formType (props : gmap (list N) json) :
  validateFormData (Some (JObject props)) = Normal accepted ->
  exists t, props !! lit "formType" = Some (JString t)
            /\ (t = lit "contact" \/ t = lit "support" \/ t = lit "quote").
Proof.
  intros H. apply accepted_inv in H as (_ & Hft & _).
  apply isOneOf_inv in Hft as (t & Hft & Hin).
  exists t. split; [done |].
  apply list_elem_of_In in Hin. simpl in Hin. intuition.
Qed.

(** ** Formatting *)

Section Formatting.
Context {printer : NumberPrinter}.

Lemma interpolate_string (props : gmap (list N) json) (key : string)
    (s : jsstring) :
  props !! lit key = Some (JString s) ->
  interpolate (Some (JObject props)) key = Normal s.
Proof.
  intros H. unfold interpolate. cbn [Get mbind completion_bind].
  by rewrite H.
Qed.

Lemma messageBodies_strings (heading : string)
    (props : gmap (list N) json) (n e p m : jsstring) :
  props !! lit "name" = Some (JString n) ->
  props !! lit "email" = Some (JString e) ->
  props !! lit "phone" = Some (JString p) ->
  props !! lit "message" = Some (JString m) ->
  exists bodies, messageBodies heading (Some (JObject props)) = Normal bodies.
Proof.
  intros Hn He Hp Hm. unfold messageBodies.
  rewrite !(interpolate_string _ _ _ Hn), !(interpolate_string _ _ _ He),
    !(interpolate_string _ _ _ Hp), !(interpolate_string _ _ _ Hm).
  cbn [Get mbind completion_bind]. rewrite Hm. cbn. eauto.
Qed.

Lemma formatEmailContent_contact (props : gmap (list N) json)
    (n e p m : jsstring) :
  props !! lit "formType" = Some (JString (lit "contact")) ->
  props !! lit "name" = Some (JString n) ->
  props !! lit "email" = Some (JString e) ->
  props !! lit "phone" = Some (JString p) ->
  props !! lit "message" = Some (JString m) ->
  formatEmailContent (Some (JObject props)) = Normal (contactEmail n e p m).
Proof.
  intros Hft Hn He Hp Hm.
  unfold formatEmailContent, messageBodies.
  rewrite !(interpolate_string _ _ _ Hn), !(interpolate_string _ _ _ He),
    !(interpolate_string _ _ _ Hp), !(interpolate_string _ _ _ Hm).
  cbn [Get mbind completion_bind]. rewrite Hft, Hm.
  reflexivity.
Qed.

Lemma formatEmailContent_support (props : gmap (list N) json)
    (n e p m : jsstring) :
  props !! lit "formType" = Some (JString (lit "support")) ->
  props !! lit "name" = Some (JString n) ->
  props !! lit "email" = Some (JString e) ->
  props !! lit "phone" = Some (JString p) ->
  props !! lit "message" = Some (JString m) ->
  exists content, formatEmailContent (Some (JObject props)) = Normal content.
Proof.
  intros Hft Hn He Hp Hm.
  destruct (messageBodies_strings "New Support Request" props n e p m)
    as [bodies Hb]; auto.
  unfold formatEmailContent.
  rewrite !(interpolate_string _ _ _ Hn), Hb.
  cbn [Get mbind completion_bind]. rewrite Hft.
  cbn. eauto.
Qed.

Lemma formatEmailContent_quote (props : gmap (list N) json)
    (n e p : jsstring) :
  props !! lit "formType" = Some (JString (lit "quote")) ->
  props !! lit "name" = Some (JString n) ->
  props !! lit "email" = Some (JString e) ->
  props !! lit "product" = Some (JString p) ->
  formatEmailContent (Some (JObject props)) =
    if truthy (props !! lit "mobile") then
      m ← ToString (props !! lit "mobile");
      Normal (quoteEmailMobile n e m p)
    else Normal (quoteEmailPlain n e p).
Proof.
  intros Hft Hn He Hp.
  unfold formatEmailContent.
  rewrite !(interpolate_string _ _ _ Hn), !(interpolate_string _ _ _ He),
    !(interpolate_string _ _ _ Hp).
  cbn [Get mbind completion_bind]. rewrite Hft.
  replace (strictEqualsString (Some (JString (lit "quote"))) (lit "contact"))
    with false by reflexivity.
  replace (strictEqualsString (Some (JString (lit "quote"))) (lit "support"))
    with false by reflexivity.
  replace (strictEqualsString (Some (JString (lit "quote"))) (lit "quote"))
    with true by reflexivity.
  cbv iota.
  destruct (truthy (props !! lit "mobile")); [| reflexivity].
  unfold interpolate. cbn [Get mbind completion_bind].
  destruct (ToString (props !! lit "mobile")) as [m | err]; [| reflexivity].
  cbn [mbind completion_bind]. unfold quoteEmailMobile, template.
  cbn [join]. rewrite <- !app_assoc. reflexivity.
Qed.

Lemma ToString_primitive (v : value) :
  isPrimitive v = true -> exists s, ToString v = Normal s.
Proof. destruct v as [[]|]; try discriminate; simpl; eauto. Qed.

(** The content of an accepted payload is composed, unless a quote request
    carries a [mobile] that is an object or an array. *)
Lemma formatEmailContent_accepted (data : value) :
  validateFormData data = Normal accepted ->
  (field data "formType" = Some (JString (lit "quote")) ->
   isPrimitive (field data "mobile") = true) ->
  exists content, formatEmailContent data = Normal content.
Proof.
  intros Hv Hmobile.
  destruct (accepted_object data Hv) as [props ->].
  destruct (accepted_common props Hv) as (n & e & Hn & _ & He & _).
  destruct (accepted_formType props Hv) as (t & Hft & [-> | [-> | ->]]).
  - destruct (accepted_message props _ Hv Hft) as (p & m & Hp & Hm); auto.
    rewrite (formatEmailContent_contact props n e p m); eauto.
  - destruct (accepted_message props _ Hv Hft) as (p & m & Hp & Hm); auto.
    apply (formatEmailContent_support props n e p m); auto.
  - destruct (accepted_quote props Hv Hft) as (p & Hp & _).
    rewrite (formatEmailContent_quote props n e p); auto.
    destruct (truthy (props !! lit "mobile")); [| eauto].
    destruct (ToString_primitive (props !! lit "mobile")) as [s ->];
      [by apply Hmobile | cbn; eauto].
Qed.

(** No line of the plain quote text begins with [Mobile:], unless the name
    brings one. *)
Lemma quoteEmailPlain_no_mobile_line (n e p : jsstring) :
  isValidEmail e = true ->
  p ∈ VALID_PRODUCTS ->
  hasLine (lit "Mobile:") (text (quoteEmailPlain n e p))
  = existsb (startsWith (lit "Mobile:")) (laterLines n).
Proof.
  intros He Hp. cbn [text quoteEmailPlain].
  rewrite hasLine_template. cbn [existsb].
  rewrite (hasLine_prefix _ (lit "Name: ") n) by (by apply no_LF_dec).
  rewrite (hasLine_prefix _ (lit "Email: ") e) by (by apply no_LF_dec).
  rewrite (hasLine_prefix _ (lit "Product: ") p) by (by apply no_LF_dec).
  assert (He' : laterLines e = []).
  { unfold laterLines. by rewrite (lines_no_LF e (isValidEmail_no_LF e He)). }
  assert (Hp' : laterLines p = []).
  { apply list_elem_of_In in Hp. simpl in Hp.
    destruct Hp as [<- | [<- | [<- | [<- | []]]]]; reflexivity. }
  rewrite He', Hp'.
  replace (hasLine (lit "Mobile:") []) with false by reflexivity.
  replace (hasLine (lit "Mobile:") (lit "New Quote Request")) with false
    by reflexivity.
  replace (hasLine (lit "Mobile:") (lit "    ")) with false by reflexivity.
  replace (startsWith (lit "Mobile:") (lit "Name: " ++ hd [] (lines n)))
    with false by reflexivity.
  replace (startsWith (lit "Mobile:") (lit "Email: " ++ hd [] (lines e)))
    with false by reflexivity.
  replace (startsWith (lit "Mobile:") (lit "Product: " ++ hd [] (lines p)))
    with false by reflexivity.
  cbn [orb existsb]. by rewrite !orb_false_r.
Qed.

Lemma quoteEmailMobile_mobile_line (n e m p : jsstring) :
  hasLine (lit "Mobile:") (text (quoteEmailMobile n e m p)) = true.
Proof.
  cbn [text quoteEmailMobile]. rewrite hasLine_template. cbn [existsb].
  rewrite (hasLine_prefix _ (lit "Mobile: ") m) by (by apply no_LF_dec).
  replace (startsWith (lit "Mobile:") (lit "Mobile: " ++ hd [] (lines m)))
    with true by reflexivity.
  cbn [orb]. by rewrite !orb_true_r.
Qed.

End Formatting.

(** Two different literals are different strings. *)
Ltac lit_neq :=
  let H := fresh in intros H; vm_compute in H; discriminate H.

(** Validation reads six fields and nothing else. *)
Lemma validateFormData_fields (props props' : gmap (list N) json) :
  props !! lit "formType" = props' !! lit "formType" ->
  props !! lit "name" = props' !! lit "name" ->
  props !! lit "email" = props' !! lit "email" ->
  props !! lit "phone" = props' !! lit "phone" ->
  props !! lit "message" = props' !! lit "message" ->
  props !! lit "product" = props' !! lit "product" ->
  validateFormData (Some (JObject props))
  = validateFormData (Some (JObject props')).
Proof.
  intros Hft Hn He Hp Hm Hpr. rewrite !validateFormData_checkInOrder.
  unfold checkInOrder, firstViolation, rules, violates, contactOrSupport,
    formTypeIs, everyPayload.
  cbn [find concerns demand reason field andb isNonNullObject negb].
  by rewrite Hft, Hn, He, Hp, Hm, Hpr.
Qed.

Lemma validateFormData_insert_mobile (props : gmap (list N) json) (v : json) :
  validateFormData (Some (JObject (<[lit "mobile" := v]> props)))
  = validateFormData (Some (JObject props)).
Proof.
  apply validateFormData_fields; apply lookup_insert_ne; lit_neq.
Qed.

Lemma validateFormData_delete_mobile (props : gmap (list N) json) :
  validateFormData (Some (JObject (delete (lit "mobile") props)))
  = validateFormData (Some (JObject props)).
Proof.
  apply validateFormData_fields; apply lookup_delete_ne; lit_neq.
Qed.

Section FormattingClaims.
Context {printer : NumberPrinter}.

(** C7. For the contact submission of Jane, whose message is [Hi], a line
    feed, [There], the subject is exactly
    [New Contact Form Submission - Jane], the HTML body shows the message
    as [Hi<br>There], and the text body keeps the line feed. For every
    contact submission the HTML body carries the message with each line
    feed replaced by [<br>], no line feed of the message surviving, and the
    text body carries the message unchanged. *)
Theorem formatEmailContent_contact_jane :
  let message := lit "Hi" ++ [LF] ++ lit "There" in
  let data :=
    Some (object [ prop "formType" (str "contact");
                   prop "name" (str "Jane");
                   prop "email" (str "jane@x.com");
                   prop "phone" (str "123");
                   prop "message" (JString message) ]) in
  validateFormData data = Normal accepted
  /\ formatEmailContent data =
       Normal
         {| subject := lit "New Contact Form Submission - Jane";
            html := template
              [ [];
                lit "      <h2>New Contact Form Submission</h2>";
                lit "      <p><strong>Name:</strong> Jane</p>";
                lit "      <p><strong>Email:</strong> jane@x.com</p>";
                lit "      <p><strong>Phone:</strong> 123</p>";
                lit "      <p><strong>Message:</strong></p>";
                lit "      <p>Hi<br>There</p>";
                lit "    " ];
            text := template
              [ [];
                lit "New Contact Form Submission";
                [];
                lit "Name: Jane";
                lit "Email: jane@x.com";
                lit "Phone: 123";
                lit "Message: Hi";
                lit "There";
                lit "    " ] |}
  /\ (forall (props : gmap (list N) json) (n e p m : jsstring),
        props !! lit "formType" = Some (JString (lit "contact")) ->
        props !! lit "name" = Some (JString n) ->
        props !! lit "email" = Some (JString e) ->
        props !! lit "phone" = Some (JString p) ->
        props !! lit "message" = Some (JString m) ->
        formatEmailContent (Some (JObject props))
        = Normal (contactEmail n e p m))
  /\ (forall m : jsstring,
        Forall (fun c => c <> LF) (replace_newlines (lit "<br>") m)).
Proof.
  cbv zeta. split; [by vm_compute |]. split; [by vm_compute |].
  split; [apply formatEmailContent_contact |].
  intros m. apply replace_newlines_no_LF. by apply no_LF_dec.
Qed.

(** C6, as it holds of the code. For every accepted quote submission: the
    bodies are composed whenever [mobile] is absent or is not an object or
    array; when [mobile] counts as true in JavaScript (a non-empty string,
    say), the composed text body has a line beginning with [Mobile:]; when
    [mobile] is absent or counts as false (the empty string, say), no line
    of the composed text body begins with [Mobile:], provided no line of the
    name after its first does. *)
Theorem quote_text_mobile_line (data : value) :
  validateFormData data = Normal accepted ->
  field data "formType" = Some (JString (lit "quote")) ->
  (isPrimitive (field data "mobile") = true ->
   exists content, formatEmailContent data = Normal content)
  /\ (forall content,
        formatEmailContent data = Normal content ->
        (truthy (field data "mobile") = true ->
         hasLine (lit "Mobile:") (text content) = true)
        /\ (truthy (field data "mobile") = false ->
            existsb (startsWith (lit "Mobile:"))
              (laterLines (asString (field data "name"))) = false ->
            hasLine (lit "Mobile:") (text content) = false)).
Proof.
  intros Hv Hft. split.
  { intros Hm. apply formatEmailContent_accepted; auto. }
  destruct (accepted_object data Hv) as [props ->]. cbn [field] in *.
  destruct (accepted_common props Hv) as (n & e & Hn & _ & He & Hee).
  destruct (accepted_quote props Hv Hft) as (p & Hp & Hpp).
  intros content. rewrite (formatEmailContent_quote props n e p); auto.
  rewrite Hn. cbn [asString].
  destruct (truthy (props !! lit "mobile")).
  - destruct (ToString (props !! lit "mobile")) as [m | err];
      cbn [mbind completion_bind]; [| discriminate].
    intros [= <-]. split; [| discriminate].
    intros _. apply quoteEmailMobile_mobile_line.
  - intros [= <-]. split; [discriminate |].
    intros _ Hname. by rewrite quoteEmailPlain_no_mobile_line.
Qed.

(** C10. For every quote submission whose other fields pass and whose
    [mobile] is the empty string, validation succeeds, as it does whatever
    [mobile] holds or when it is removed, for validation never reads it;
    and the composed content is the one of the same submission without
    [mobile]: the HTML and text templates with no Mobile line. *)
Theorem quote_empty_mobile (props : gmap (list N) json) (n e p : jsstring) :
  props !! lit "formType" = Some (JString (lit "quote")) ->
  props !! lit "name" = Some (JString n) -> trim n <> [] ->
  props !! lit "email" = Some (JString e) -> isValidEmail e = true ->
  props !! lit "product" = Some (JString p) -> p ∈ VALID_PRODUCTS ->
  props !! lit "mobile" = Some (JString []) ->
  validateFormData (Some (JObject props)) = Normal accepted
  /\ (forall v : json,
        validateFormData (Some (JObject (<[lit "mobile" := v]> props)))
        = Normal accepted)
  /\ validateFormData (Some (JObject (delete (lit "mobile") props)))
     = Normal accepted
  /\ formatEmailContent (Some (JObject props))
     = Normal (quoteEmailPlain n e p)
  /\ formatEmailContent (Some (JObject (delete (lit "mobile") props)))
     = Normal (quoteEmailPlain n e p)
  /\ (existsb (startsWith (lit "Mobile:")) (laterLines n) = false ->
      hasLine (lit "Mobile:") (text (quoteEmailPlain n e p)) = false).
Proof.
  intros Hft Hn Hnn He Hee Hp Hpp Hm.
  assert (Hv : validateFormData (Some (JObject props)) = Normal accepted).
  { rewrite validateFormData_checkInOrder.
    unfold checkInOrder, firstViolation, rules, violates, contactOrSupport,
      formTypeIs, everyPayload.
    cbn [find concerns demand reason field andb isNonNullObject negb].
    rewrite Hft, Hn, He, Hp. cbn [isEmailString]. rewrite Hee.
    rewrite (isOneOf_intro _ _ Hpp).
    cbn [isNonBlankString].
    apply str_eqb_neq in Hnn. rewrite Hnn.
    assert (Hpt : str_eqb (trim p) [] = false).
    { apply list_elem_of_In in Hpp. simpl in Hpp.
      destruct Hpp as [<- | [<- | [<- | [<- | []]]]]; reflexivity. }
    rewrite Hpt. reflexivity. }
  split; [exact Hv |].
  split; [intros v; by rewrite validateFormData_insert_mobile |].
  split; [by rewrite validateFormData_delete_mobile |].
  split.
  { rewrite (formatEmailContent_quote props n e p); auto.
    by rewrite Hm. }
  split.
  { rewrite (formatEmailContent_quote _ n e p).
    - by rewrite lookup_delete_eq.
    - rewrite lookup_delete_ne; [done | lit_neq].
    - rewrite lookup_delete_ne; [done | lit_neq].
    - rewrite lookup_delete_ne; [done | lit_neq].
    - rewrite lookup_delete_ne; [done | lit_neq]. }
  intros Hname. by rewrite quoteEmailPlain_no_mobile_line.
Qed.

End FormattingClaims.

(** ** The POST handler *)

Lemma reason_nonempty (data : value) (r : rule) :
  firstViolation data = Some r -> str_eqb (reason r) [] = false.
Proof.
  intros H. apply find_some in H as [Hin _].
  simpl in Hin.
  repeat (destruct Hin as [<- | Hin]; [reflexivity |]). destruct Hin.
Qed.

Lemma Get_accepted (data : value) (key : string) :
  validateFormData data = Normal accepted ->
  Get data key = Normal (field data key).
Proof. intros H. by destruct (accepted_object data H) as [props ->]. Qed.

Section Handler.
Context {printer : NumberPrinter}.
Variables (env : ProcessEnv) (request : NextRequest).

(** The CORS headers of every response to [request]. *)
Let cors : Headers := getCorsHeaders env (originHeader request).

(** What the [catch] block leaves behind for a caught [e]. *)
Let caught (e : thrown) : list event * completion NextResponse :=
  ( [Logged (lit "Error sending email:") e],
    Normal (jsonResponse 500 (lit "error")
              match e with
              | ErrorInstance msg => msg
              | NonError _ => fallbackMessage
              end cors) ).

Lemma run_POST (w : World) :
  run w (POST env request) =
    match requestJson w with
    | Throw e => caught e
    | Normal body =>
        match validateFormData (Some body) with
        | Throw e => caught e
        | Normal validation =>
            if negb (valid validation) then
              ( [],
                Normal (jsonResponse 400 (lit "error")
                          (orString (error validation)
                             (lit "Validation failed")) cors) )
            else
              match formatEmailContent (Some body) with
              | Throw e => caught e
              | Normal content =>
                  match Get (Some body) "email" with
                  | Throw e => caught e
                  | Normal submitter =>
                      let m := relayMessage content submitter in
                      match relay w m with
                      | Normal _ =>
                          ( [SentMail m],
                            Normal (jsonResponse 200 (lit "success")
                                      successMessage cors) )
                      | Throw e =>
                          (SentMail m :: fst (caught e), snd (caught e))
                      end
                  end
              end
        end
    end.
Proof.
  unfold POST, awaitRequestJson, awaitSendMail, settle.
  cbn [mbind async_mbind async_bind tryCatch run].
  destruct (requestJson w) as [body | e]; [| reflexivity].
  cbn [mbind async_mbind async_bind sync tryCatch run].
  destruct (validateFormData (Some body)) as [validation | e];
    [| reflexivity].
  cbn [mbind async_mbind async_bind sync tryCatch run].
  destruct (negb (valid validation)); [reflexivity |].
  destruct (formatEmailContent (Some body)) as [content | e];
    [| reflexivity].
  cbn [mbind async_mbind async_bind sync tryCatch run].
  destruct (Get (Some body) "email") as [submitter | e]; [| reflexivity].
  cbn [mbind async_mbind async_bind sync tryCatch run].
  change {| from := lit "noreply@caduae.com"; to := lit "info@caduae.com";
            mailSubject := subject content; mailHtml := html content;
            mailText := text content; replyTo := submitter |}
    with (relayMessage content submitter).
  destruct (relay w (relayMessage content submitter)) as [[] | e];
    reflexivity.
Qed.

(** C3. For every payload that fails validation, the handler answers 400
    with the reason of the first violated rule and nothing happens besides:
    the relay is not invoked. In particular the reason is
    [formType is required] when the payload has no [formType], the message
    naming the three choices when [formType] is none of them, and the
    message listing the four products when a quote request names another
    product. *)
Theorem POST_validation_failure (w : World) (body : json) :
  requestJson w = Normal body ->
  let rejection (msg : jsstring) : list event * completion NextResponse :=
    ([], Normal (jsonResponse 400 (lit "error") msg cors)) in
  (validateFormData (Some body) <> Normal accepted ->
   exists r, firstViolation (Some body) = Some r
             /\ run w (POST env request) = rejection (reason r)
             /\ relayCalls (fst (run w (POST env request))) = 0%nat)
  /\ (isNonNullObject (Some body) = true ->
      field (Some body) "formType" = undefined ->
      run w (POST env request) = rejection (lit "formType is required"))
  /\ (truthy (field (Some body) "formType") = true ->
      isOneOf FORM_TYPES (field (Some body) "formType") = false ->
      run w (POST env request)
      = rejection (lit "Invalid formType. Must be contact, support, or quote"))
  /\ (formTypeIs "quote" (Some body) = true ->
      isNonBlankString (field (Some body) "name") = true ->
      isEmailString (field (Some body) "email") = true ->
      isNonBlankString (field (Some body) "product") = true ->
      isOneOf VALID_PRODUCTS (field (Some body) "product") = false ->
      run w (POST env request)
      = rejection (lit "product must be one of: ARCHITECT, LANDMARK, SPOTLIGHT, FUNDAMENTALS")).
Proof.
  intros Hbody rejection.
  assert (Hrun : forall r, firstViolation (Some body) = Some r ->
                           run w (POST env request) = rejection (reason r)).
  { intros r Hr. rewrite run_POST, Hbody, validateFormData_checkInOrder.
    unfold checkInOrder. rewrite Hr. cbn [valid negb error rejected orString].
    by rewrite (reason_nonempty _ _ Hr). }
  split; [| split; [| split]].
  - intros Hv. destruct (validateFormData_cases (Some body)) as [| (r & Hr & _)];
      [done |].
    exists r. split; [done |]. rewrite (Hrun r Hr). done.
  - intros Hobj Hft.
    apply (Hrun {| concerns := everyPayload;
                   demand := fun d => truthy (field d "formType");
                   reason := lit "formType is required" |}).
    unfold firstViolation, rules, violates, everyPayload.
    cbn [find concerns demand andb negb].
    by rewrite Hobj, Hft.
  - intros Ht Hnot.
    apply (Hrun {| concerns := everyPayload;
                   demand := fun d => isOneOf FORM_TYPES (field d "formType");
                   reason := lit "Invalid formType. Must be contact, support, or quote" |}).
    unfold firstViolation, rules, violates, everyPayload.
    cbn [find concerns demand andb negb].
    rewrite Ht, Hnot.
    destruct body as [| | | | items | props]; try discriminate; reflexivity.
  - intros Hq Hn He Hp Hnot.
    apply (Hrun {| concerns := formTypeIs "quote";
                   demand := fun d => isOneOf VALID_PRODUCTS (field d "product");
                   reason := lit "product must be one of: ARCHITECT, LANDMARK, SPOTLIGHT, FUNDAMENTALS" |}).
    unfold firstViolation, rules, violates, everyPayload, contactOrSupport.
    cbn [find concerns demand andb negb].
    rewrite Hq, Hn, He, Hp, Hnot.
    destruct body as [| | | | items | props]; try discriminate.
    unfold formTypeIs in *. cbn [field] in *.
    destruct (props !! lit "formType") as [[| | | t | |]|]; try discriminate.
    cbn [isOneOf existsb] in Hq. rewrite orb_false_r in Hq.
    apply str_eqb_eq in Hq as ->. reflexivity.
Qed.

(** C2. Whenever the relay's send call fails, the handler logs the failure
    and answers 500: with the failure's own message when the failure is an
    [Error], and with the fallback sentence when it is any other value and
    so offers no message. Whatever the outside does, a run of the handler
    ends with a response and never with a raised failure. *)
Theorem POST_relay_failure (w : World) (body : json)
    (content : EmailContent) (e : thrown) :
  requestJson w = Normal body ->
  validateFormData (Some body) = Normal accepted ->
  formatEmailContent (Some body) = Normal content ->
  let m := relayMessage content (field (Some body) "email") in
  relay w m = Throw e ->
  run w (POST env request) =
    ( [SentMail m; Logged (lit "Error sending email:") e],
      Normal (jsonResponse 500 (lit "error")
                match e with
                | ErrorInstance msg => msg
                | NonError _ =>
                    lit "An error occurred while sending your message. Please try again later."
                end cors) )
  /\ (forall w' : World,
        exists response, snd (run w' (POST env request)) = Normal response).
Proof.
  intros Hbody Hv Hc m Hrelay. split.
  - rewrite run_POST, Hbody, Hv, Hc, (Get_accepted _ _ Hv).
    cbn [valid accepted negb]. fold m. by rewrite Hrelay.
  - intros w'. rewrite run_POST.
    destruct (requestJson w') as [b |]; [| cbn; eauto].
    destruct (validateFormData (Some b)) as [v |]; [| cbn; eauto].
    destruct (negb (valid v)); [cbn; eauto |].
    destruct (formatEmailContent (Some b)) as [c |]; [| cbn; eauto].
    destruct (Get (Some b) "email") as [s |]; [| cbn; eauto].
    cbv zeta. destruct (relay w' (relayMessage c s)); cbn; eauto.
Qed.

(** C5, as it holds of the code. For every accepted submission whose content
    is composed, which is the case for every contact and support submission
    and for a quote request whenever [mobile] is absent or is not an object
    or array, the handler awaits the parsed body, then awaits one call
    of the relay with the composed message, and only in the continuation of
    that call produces a response: success, 200 and the thank-you message,
    when the call completed, and the 500 answer when it failed. The relay is
    invoked exactly once. And for every accepted submission, a 200 answer
    comes only after one call of the relay that completed. *)
Theorem POST_success_after_relay (w : World) (body : json) :
  requestJson w = Normal body ->
  validateFormData (Some body) = Normal accepted ->
  let success :=
    jsonResponse 200 (lit "success")
      (lit "Thank you! Your message has been sent successfully.") cors in
  ((field (Some body) "formType" = Some (JString (lit "quote")) ->
    isPrimitive (field (Some body) "mobile") = true) ->
   exists content, formatEmailContent (Some body) = Normal content)
  /\ (forall content,
        formatEmailContent (Some body) = Normal content ->
        let m := relayMessage content (field (Some body) "email") in
        (exists afterBody afterRelay,
            POST env request = AwaitRequestJson afterBody
            /\ afterBody (Normal body) = AwaitSendMail m afterRelay
            /\ afterRelay (Normal tt) = Return success
            /\ forall e, exists failure,
                  afterRelay (Throw e)
                  = ConsoleError (lit "Error sending email:") e
                      (Return failure)
                  /\ httpStatus failure = 500)
        /\ run w (POST env request) =
             match relay w m with
             | Normal _ => ([SentMail m], Normal success)
             | Throw e =>
                 ( [SentMail m; Logged (lit "Error sending email:") e],
                   Normal (jsonResponse 500 (lit "error")
                             match e with
                             | ErrorInstance msg => msg
                             | NonError _ => fallbackMessage
                             end cors) )
             end
        /\ relayCalls (fst (run w (POST env request))) = 1%nat)
  /\ (forall response,
        snd (run w (POST env request)) = Normal response ->
        httpStatus response = 200 ->
        response = success
        /\ exists content,
             formatEmailContent (Some body) = Normal content
             /\ relay w (relayMessage content (field (Some body) "email"))
                = Normal tt
             /\ fst (run w (POST env request))
                = [SentMail (relayMessage content
                               (field (Some body) "email"))]).
Proof.
  intros Hbody Hv success. split; [| split].
  - intros Hm. apply formatEmailContent_accepted; auto.
  - intros content Hc m.
    assert (Hrun : run w (POST env request) =
              match relay w m with
              | Normal _ => ([SentMail m], Normal success)
              | Throw e =>
                  ( [SentMail m; Logged (lit "Error sending email:") e],
                    Normal (jsonResponse 500 (lit "error")
                              match e with
                              | ErrorInstance msg => msg
                              | NonError _ => fallbackMessage
                              end cors) )
              end).
    { rewrite run_POST, Hbody, Hv, Hc, (Get_accepted _ _ Hv).
      cbn [valid accepted negb]. fold m. by destruct (relay w m). }
    split; [| split; [exact Hrun |]].
    + unfold POST, awaitRequestJson, awaitSendMail, settle.
      cbn [mbind async_mbind async_bind tryCatch].
      eexists. eexists. split; [reflexivity |].
      cbn [mbind async_mbind async_bind sync tryCatch].
      rewrite Hv. cbn [mbind async_mbind async_bind sync tryCatch].
      cbn [valid accepted negb]. rewrite Hc.
      cbn [mbind async_mbind async_bind sync tryCatch].
      rewrite (Get_accepted _ _ Hv).
      cbn [mbind async_mbind async_bind sync tryCatch].
      split; [reflexivity |]. split; [reflexivity |].
      intros e. eexists. split; reflexivity.
    + rewrite Hrun. by destruct (relay w m).
  - intros response. rewrite run_POST, Hbody, Hv.
    cbn [valid accepted negb].
    destruct (formatEmailContent (Some body)) as [content | e];
      [| cbn [snd caught]; intros [= <-]; discriminate].
    rewrite (Get_accepted _ _ Hv). cbv zeta.
    destruct (relay w (relayMessage content (field (Some body) "email")))
      as [[] | e] eqn:Hrelay;
      [| cbn [snd caught]; intros [= <-]; discriminate].
    cbn [fst snd]. intros [= <-] _. split; [reflexivity |].
    exists content. done.
Qed.

End Handler.

(** ** The claims at concrete requests *)

(** A request from the canonical origin reaches the production deployment
    with no [formType]: it is answered 400 and the relay stays idle. *)
Lemma POST_validation_failure_witness :
  let w := {| requestJson := Normal (object [prop "name" (str "Jane")]);
              relay := fun _ => Normal tt |} in
  let env := {| NODE_ENV := Some (lit "production") |} in
  let request := {| originHeader := Some (lit "https://caduae.com") |} in
  requestJson w = Normal (object [prop "name" (str "Jane")])
  /\ run w (@POST examplePrinter env request)
     = ( [],
         Normal (jsonResponse 400 (lit "error") (lit "formType is required")
                   (getCorsHeaders env (originHeader request))) ).
Proof.
  intros w env request. split; [reflexivity |].
  refine (proj1 (proj2 (@POST_validation_failure examplePrinter env request w
                          (object [prop "name" (str "Jane")]) eq_refl)) _ _);
    by vm_compute.
Defined.

(** Jane's contact submission when the relay refuses the connection: the
    answer is 500 with the relay's own words. *)
Lemma POST_relay_failure_witness :
  let jane :=
    object [ prop "formType" (str "contact"); prop "name" (str "Jane");
             prop "email" (str "jane@x.com"); prop "phone" (str "123");
             prop "message" (str "Hello") ] in
  let refusal := ErrorInstance (lit "Connection refused") in
  let w := {| requestJson := Normal jane; relay := fun _ => Throw refusal |} in
  let env := {| NODE_ENV := None |} in
  let request := {| originHeader := None |} in
  let content :=
    contactEmail (lit "Jane") (lit "jane@x.com") (lit "123") (lit "Hello") in
  let m := relayMessage content (Some (str "jane@x.com")) in
  validateFormData (Some jane) = Normal accepted
  /\ @formatEmailContent examplePrinter (Some jane) = Normal content
  /\ relay w m = Throw refusal
  /\ run w (@POST examplePrinter env request)
     = ( [SentMail m; Logged (lit "Error sending email:") refusal],
         Normal (jsonResponse 500 (lit "error") (lit "Connection refused")
                   (getCorsHeaders env None)) ).
Proof.
  intros jane refusal w env request content m.
  assert (Hv : validateFormData (Some jane) = Normal accepted)
    by (by vm_compute).
  assert (Hc : @formatEmailContent examplePrinter (Some jane) = Normal content)
    by (by vm_compute).
  split; [exact Hv |]. split; [exact Hc |]. split; [reflexivity |].
  exact (proj1 (@POST_relay_failure examplePrinter env request w jane content
                  refusal eq_refl Hv Hc eq_refl)).
Defined.

(** Jane's contact submission when the relay delivers: one call of the
    relay, then 200. *)
Lemma POST_success_after_relay_witness :
  let jane :=
    object [ prop "formType" (str "contact"); prop "name" (str "Jane");
             prop "email" (str "jane@x.com"); prop "phone" (str "123");
             prop "message" (str "Hello") ] in
  let w := {| requestJson := Normal jane; relay := fun _ => Normal tt |} in
  let env := {| NODE_ENV := None |} in
  let request := {| originHeader := None |} in
  let content :=
    contactEmail (lit "Jane") (lit "jane@x.com") (lit "123") (lit "Hello") in
  validateFormData (Some jane) = Normal accepted
  /\ @formatEmailContent examplePrinter (Some jane) = Normal content
  /\ relayCalls (fst (run w (@POST examplePrinter env request))) = 1%nat.
Proof.
  intros jane w env request content.
  assert (Hv : validateFormData (Some jane) = Normal accepted)
    by (by vm_compute).
  assert (Hc : @formatEmailContent examplePrinter (Some jane) = Normal content)
    by (by vm_compute).
  split; [exact Hv |]. split; [exact Hc |].
  exact (proj2 (proj2 (proj1 (proj2
           (@POST_success_after_relay examplePrinter env request w jane
              eq_refl Hv)) content Hc))).
Defined.

(** A valid submission after which the relay is never invoked: the payload
    passes validation, its [mobile] is an object with a [toString] field of
    its own, composing the bodies raises, and the handler answers 500. *)
Lemma POST_relay_once_counterexample :
  let payload :=
    object [ prop "formType" (str "quote"); prop "name" (str "Jane");
             prop "email" (str "jane@x.com"); prop "product" (str "LANDMARK");
             prop "mobile" (object [prop "toString" JNull]) ] in
  let w := {| requestJson := Normal payload; relay := fun _ => Normal tt |} in
  let env := {| NODE_ENV := None |} in
  let request := {| originHeader := None |} in
  validateFormData (Some payload) = Normal accepted
  /\ relayCalls (fst (run w (@POST examplePrinter env request))) = 0%nat
  /\ exists response,
       snd (run w (@POST examplePrinter env request)) = Normal response
       /\ httpStatus response = 500.
Proof.
  intros payload w env request.
  split; [by vm_compute |]. split; [by vm_compute |].
  eexists. split; by vm_compute.
Qed.

(** A quote request with a mobile number: the text body has its Mobile
    line. *)
Lemma quote_text_mobile_line_witness :
  let payload :=
    Some (object [ prop "formType" (str "quote"); prop "name" (str "Jane");
                   prop "email" (str "jane@x.com");
                   prop "product" (str "LANDMARK");
                   prop "mobile" (str "555 0100") ]) in
  let content :=
    quoteEmailMobile (lit "Jane") (lit "jane@x.com") (lit "555 0100")
      (lit "LANDMARK") in
  validateFormData payload = Normal accepted
  /\ field payload "formType" = Some (JString (lit "quote"))
  /\ @formatEmailContent examplePrinter payload = Normal content
  /\ truthy (field payload "mobile") = true
  /\ hasLine (lit "Mobile:") (text content) = true.
Proof.
  intros payload content.
  assert (Hv : validateFormData payload = Normal accepted) by (by vm_compute).
  assert (Hft : field payload "formType" = Some (JString (lit "quote")))
    by (by vm_compute).
  assert (Hc : @formatEmailContent examplePrinter payload = Normal content)
    by (by vm_compute).
  assert (Hm : truthy (field payload "mobile") = true) by (by vm_compute).
  split; [exact Hv |]. split; [exact Hft |]. split; [exact Hc |].
  split; [exact Hm |].
  exact (proj1 (proj2 (@quote_text_mobile_line examplePrinter payload Hv Hft)
                  content Hc) Hm).
Defined.

(** Two valid quote submissions against the claim as first stated: one whose
    [mobile] is set, to the empty string, and whose text body has no line
    beginning with [Mobile:]; and one with no [mobile] whose text body has
    such a line, brought by the second line of the name. *)
Lemma quote_text_mobile_line_counterexample :
  (let payload :=
     Some (object [ prop "formType" (str "quote"); prop "name" (str "Jane");
                    prop "email" (str "jane@x.com");
                    prop "product" (str "LANDMARK");
                    prop "mobile" (str "") ]) in
   validateFormData payload = Normal accepted
   /\ field payload "mobile" = Some (JString [])
   /\ exists content,
        @formatEmailContent examplePrinter payload = Normal content
        /\ hasLine (lit "Mobile:") (text content) = false)
  /\ (let payload :=
        Some (object [ prop "formType" (str "quote");
                       prop "name"
                         (JString (lit "Jane" ++ [LF] ++ lit "Mobile: 555"));
                       prop "email" (str "jane@x.com");
                       prop "product" (str "LANDMARK") ]) in
      validateFormData payload = Normal accepted
      /\ field payload "mobile" = undefined
      /\ exists content,
           @formatEmailContent examplePrinter payload = Normal content
           /\ hasLine (lit "Mobile:") (text content) = true).
Proof.
  split; cbv zeta.
  - split; [by vm_compute |]. split; [by vm_compute |].
    eexists. split; by vm_compute.
  - split; [by vm_compute |]. split; [by vm_compute |].
    eexists. split; by vm_compute.
Qed.

(** The general statement on contact submissions, at Jane's. *)
Lemma formatEmailContent_contact_jane_witness :
  let props : gmap (list N) json :=
    list_to_map
      [ prop "formType" (str "contact"); prop "name" (str "Jane");
        prop "email" (str "jane@x.com"); prop "phone" (str "123");
        prop "message" (JString (lit "Hi" ++ [LF] ++ lit "There")) ] in
  props !! lit "message" = Some (JString (lit "Hi" ++ [LF] ++ lit "There"))
  /\ @formatEmailContent examplePrinter (Some (JObject props))
     = Normal (contactEmail (lit "Jane") (lit "jane@x.com") (lit "123")
                 (lit "Hi" ++ [LF] ++ lit "There")).
Proof.
  intros props. split; [by vm_compute |].
  apply (proj1 (proj2 (proj2 (@formatEmailContent_contact_jane examplePrinter))));
    by vm_compute.
Defined.

(** A quote request whose [mobile] is the empty string. *)
Lemma quote_empty_mobile_witness :
  let props : gmap (list N) json :=
    list_to_map
      [ prop "formType" (str "quote"); prop "name" (str "Jane");
        prop "email" (str "jane@x.com"); prop "product" (str "LANDMARK");
        prop "mobile" (str "") ] in
  props !! lit "mobile" = Some (JString [])
  /\ trim (lit "Jane") <> []
  /\ isValidEmail (lit "jane@x.com") = true
  /\ lit "LANDMARK" ∈ VALID_PRODUCTS
  /\ validateFormData (Some (JObject props)) = Normal accepted
  /\ @formatEmailContent examplePrinter (Some (JObject props))
     = Normal (quoteEmailPlain (lit "Jane") (lit "jane@x.com") (lit "LANDMARK")).
Proof.
  intros props.
  assert (Hn : trim (lit "Jane") <> []) by (vm_compute; discriminate).
  assert (Hp : lit "LANDMARK" ∈ VALID_PRODUCTS).
  { apply list_elem_of_In. simpl. auto. }
  assert (Hm : props !! lit "mobile" = Some (JString [])) by (by vm_compute).
  assert (He : isValidEmail (lit "jane@x.com") = true) by (by vm_compute).
  assert (Hft : props !! lit "formType" = Some (JString (lit "quote")))
    by (by vm_compute).
  assert (Hname : props !! lit "name" = Some (JString (lit "Jane")))
    by (by vm_compute).
  assert (Hemail : props !! lit "email" = Some (JString (lit "jane@x.com")))
    by (by vm_compute).
  assert (Hproduct : props !! lit "product" = Some (JString (lit "LANDMARK")))
    by (by vm_compute).
  destruct (@quote_empty_mobile examplePrinter props (lit "Jane")
              (lit "jane@x.com") (lit "LANDMARK")
              Hft Hname Hn Hemail He Hproduct Hp Hm)
    as (Hv & _ & _ & Hc & _).
  split; [exact Hm |]. split; [exact Hn |]. split; [exact He |].
  split; [exact Hp |]. split; [exact Hv | exact Hc].
Defined.

(** * Further properties of the route *)

(** ** Every run of the POST handler *)

Section HandlerRuns.
Context {printer : NumberPrinter}.
Variables (env : ProcessEnv) (request : NextRequest).

Let cors : Headers := getCorsHeaders env (originHeader request).

Let errorText (e : thrown) : jsstring :=
  match e with
  | ErrorInstance msg => msg
  | NonError _ => fallbackMessage
  end.

(** Every way a run of the handler can go. *)
Lemma run_POST_cases (w : World) :
  (exists e,
      requestJson w = Throw e
      /\ run w (POST env request)
         = ( [Logged (lit "Error sending email:") e],
             Normal (jsonResponse 500 (lit "error") (errorText e) cors) ))
  \/ (exists body r,
        requestJson w = Normal body
        /\ firstViolation (Some body) = Some r
        /\ run w (POST env request)
           = ([], Normal (jsonResponse 400 (lit "error") (reason r) cors)))
  \/ (exists body e,
        requestJson w = Normal body
        /\ validateFormData (Some body) = Normal accepted
        /\ formatEmailContent (Some body) = Throw e
        /\ run w (POST env request)
           = ( [Logged (lit "Error sending email:") e],
               Normal (jsonResponse 500 (lit "error") (errorText e) cors) ))
  \/ (exists body content e,
        requestJson w = Normal body
        /\ validateFormData (Some body) = Normal accepted
        /\ formatEmailContent (Some body) = Normal content
        /\ relay w (relayMessage content (field (Some body) "email")) = Throw e
        /\ run w (POST env request)
           = ( [SentMail (relayMessage content (field (Some body) "email"));
                Logged (lit "Error sending email:") e],
               Normal (jsonResponse 500 (lit "error") (errorText e) cors) ))
  \/ (exists body content,
        requestJson w = Normal body
        /\ validateFormData (Some body) = Normal accepted
        /\ formatEmailContent (Some body) = Normal content
        /\ relay w (relayMessage content (field (Some body) "email")) = Normal tt
        /\ run w (POST env request)
           = ( [SentMail (relayMessage content (field (Some body) "email"))],
               Normal (jsonResponse 200 (lit "success") successMessage cors) )).
Proof.
  rewrite run_POST.
  destruct (requestJson w) as [body | e] eqn:Hbody; [| left; exists e; done].
  right.
  destruct (validateFormData_cases (Some body)) as [Hv | (r & Hr & Hv)];
    rewrite Hv; cbn [valid accepted rejected negb error orString].
  2:{ left. exists body, r. rewrite (reason_nonempty _ _ Hr). done. }
  right.
  destruct (formatEmailContent (Some body)) as [content | e] eqn:Hc;
    [| left; exists body, e; done].
  right. rewrite (Get_accepted _ _ Hv). cbv zeta.
  destruct (relay w (relayMessage content (field (Some body) "email")))
    as [[] | e] eqn:Hrelay.
  - right. exists body, content. done.
  - left. exists body, content, e. done.
Qed.

End HandlerRuns.

Lemma trimStart_nil (s : jsstring) :
  trimStart s = [] <-> forallb isWhiteSpace s = true.
Proof.
  induction s as [| c s IH]; simpl; [done |].
  destruct (isWhiteSpace c); simpl; [exact IH | split; discriminate].
Qed.

Lemma trimStart_fixed (s : jsstring) :
  forallb isWhiteSpace (trimStart s) = true -> trimStart s = [].
Proof.
  induction s as [| c s IH]; simpl; [done |].
  destruct (isWhiteSpace c) eqn:Hc; [exact IH |].
  simpl. rewrite Hc. discriminate.
Qed.

Lemma forallb_rev {A : Type} (f : A -> bool) (l : list A) :
  forallb f (rev l) = forallb f l.
Proof.
  induction l as [| a l IH]; [reflexivity |].
  simpl. rewrite forallb_app, IH. simpl. rewrite andb_true_r. apply andb_comm.
Qed.

Lemma trim_nil (s : jsstring) :
  trim s = [] <-> forallb isWhiteSpace s = true.
Proof.
  unfold trim, trimEnd. split.
  - intros H. apply (f_equal (@rev N)) in H. rewrite rev_involutive in H.
    simpl in H. apply trimStart_nil in H. rewrite forallb_rev in H.
    apply trimStart_fixed in H. by apply trimStart_nil.
  - intros H. apply trimStart_nil in H. rewrite H. reflexivity.
Qed.

Lemma isNonBlankString_whitespace (s : jsstring) :
  isNonBlankString (Some (JString s)) = negb (forallb isWhiteSpace s).
Proof.
  simpl. f_equal. apply eq_true_iff_eq.
  rewrite str_eqb_eq. apply trim_nil.
Qed.

Lemma find_skip {A : Type} (f : A -> bool) (a : A) (l : list A) :
  f a = false -> find f (a :: l) = find f l.
Proof. intros H. simpl. by rewrite H. Qed.

Lemma find_hit {A : Type} (f : A -> bool) (a : A) (l : list A) :
  f a = true -> find f (a :: l) = Some a.
Proof. intros H. simpl. by rewrite H. Qed.

Lemma truthy_formType (v : value) :
  isOneOf FORM_TYPES v = true -> truthy v = true.
Proof.
  intros H. apply isOneOf_inv in H as (t & -> & Hin). simpl.
  apply negb_true_iff, str_eqb_neq. intros ->.
  apply list_elem_of_In in Hin. simpl in Hin. intuition discriminate.
Qed.

(** X10. With a [formType] among the three choices and a [name] that is a
    string, the payload is rejected with [name is required] exactly when
    every code unit of the name is white space in the sense of
    [String.prototype.trim] (the no-break space and the byte order mark
    included); the empty name is the case of no code unit at all. *)
Theorem validateFormData_blank_name (props : gmap (list N) json)
    (n : jsstring) :
  isOneOf FORM_TYPES (props !! lit "formType") = true ->
  props !! lit "name" = Some (JString n) ->
  validateFormData (Some (JObject props))
    = Normal (rejected (lit "name is required"))
  <-> forallb isWhiteSpace n = true.
Proof.
  intros Hft Hn.
  rewrite validateFormData_checkInOrder.
  unfold checkInOrder, firstViolation, rules.
  rewrite find_skip by reflexivity.
  rewrite find_skip
    by (unfold violates; cbn [concerns demand field andb];
        by rewrite (truthy_formType _ Hft)).
  rewrite find_skip
    by (unfold violates; cbn [concerns demand field andb]; by rewrite Hft).
  destruct (forallb isWhiteSpace n) eqn:Hblank.
  - rewrite find_hit; [done |].
    unfold violates. cbn [concerns demand field andb everyPayload].
    by rewrite Hn, isNonBlankString_whitespace, Hblank.
  - rewrite find_skip
      by (unfold violates; cbn [concerns demand field andb everyPayload];
          by rewrite Hn, isNonBlankString_whitespace, Hblank).
    split; [| discriminate].
    match goal with |- context [find ?f ?l] => destruct (find f l) as [r |] eqn:Hr end;
      [| discriminate].
    apply find_some in Hr as [Hin _]. simpl in Hin.
    repeat (destruct Hin as [<- | Hin];
            [intros H; vm_compute in H; discriminate H |]).
    destruct Hin.
Qed.

Lemma isNonBlankString_intro (s : jsstring) :
  trim s <> [] -> isNonBlankString (Some (JString s)) = true.
Proof. intros H. simpl. by apply negb_true_iff, str_eqb_neq. Qed.

(** X8. The payloads validation accepts are exactly the objects with a [name]
    that is a string not made of white space only, an [email] that is a
    string matching the pattern, and either [formType] [contact] or
    [support] with [phone] and [message] strings not made of white space
    only, or [formType] [quote] with [product] exactly one of the four
    product names. *)
Theorem validateFormData_accepted_iff (data : value) :
  validateFormData data = Normal accepted <->
  exists props n e,
    data = Some (JObject props)
    /\ props !! lit "name" = Some (JString n) /\ trim n <> []
    /\ props !! lit "email" = Some (JString e) /\ isValidEmail e = true
    /\ ((exists p m,
           (props !! lit "formType" = Some (JString (lit "contact"))
            \/ props !! lit "formType" = Some (JString (lit "support")))
           /\ props !! lit "phone" = Some (JString p) /\ trim p <> []
           /\ props !! lit "message" = Some (JString m) /\ trim m <> [])
        \/ (exists p,
              props !! lit "formType" = Some (JString (lit "quote"))
              /\ props !! lit "product" = Some (JString p)
              /\ p ∈ VALID_PRODUCTS)).
Proof.
  split.
  - intros Hv. destruct (accepted_object data Hv) as [props ->].
    destruct (accepted_common props Hv) as (n & e & Hn & Hnn & He & Hee).
    exists props, n, e. repeat (split; [done |]).
    destruct (accepted_formType props Hv) as (t & Hft & Ht).
    apply accepted_inv in Hv as (_ & _ & _ & _ & Hc & Hq).
    unfold contactOrSupport, formTypeIs in *. cbn [field] in *.
    rewrite Hft in *.
    destruct Ht as [-> | [-> | ->]].
    + left. destruct Hc as [Hp Hm]; [reflexivity |].
      apply isNonBlankString_inv in Hp as (p & Hp & Hpp).
      apply isNonBlankString_inv in Hm as (m & Hm & Hmm).
      exists p, m. auto.
    + left. destruct Hc as [Hp Hm]; [reflexivity |].
      apply isNonBlankString_inv in Hp as (p & Hp & Hpp).
      apply isNonBlankString_inv in Hm as (m & Hm & Hmm).
      exists p, m. auto.
    + right. destruct Hq as [_ Hp]; [reflexivity |].
      apply isOneOf_inv in Hp as (p & Hp & Hpp). eauto.
  - intros (props & n & e & -> & Hn & Hnn & He & Hee & Hform).
    rewrite validateFormData_checkInOrder.
    unfold checkInOrder, firstViolation, rules, violates, contactOrSupport,
      formTypeIs, everyPayload.
    cbn [find concerns demand reason field andb isNonNullObject negb].
    rewrite Hn, He, (isNonBlankString_intro n Hnn). cbn [isEmailString].
    rewrite Hee.
    destruct Hform as [(p & m & Hft & Hp & Hpp & Hm & Hmm) | (p & Hft & Hp & Hpp)].
    + rewrite Hp, Hm, (isNonBlankString_intro p Hpp),
        (isNonBlankString_intro m Hmm).
      destruct Hft as [-> | ->]; reflexivity.
    + rewrite Hft, Hp, (isOneOf_intro _ _ Hpp).
      assert (Hpt : isNonBlankString (Some (JString p)) = true).
      { apply list_elem_of_In in Hpp. simpl in Hpp.
        destruct Hpp as [<- | [<- | [<- | [<- | []]]]]; reflexivity. }
      rewrite Hpt. reflexivity.
Qed.

(** X9. A [formType] that is not a string is never one of the three choices,
    even when it would convert to one (the array [["contact"]], say): if it
    counts as true the payload is rejected with the message naming the
    choices. *)
Theorem validateFormData_formType_not_string (props : gmap (list N) json)
    (v : json) :
  props !! lit "formType" = Some v ->
  truthy (Some v) = true ->
  (forall s, v <> JString s) ->
  validateFormData (Some (JObject props))
  = Normal (rejected (lit "Invalid formType. Must be contact, support, or quote")).
Proof.
  intros Hft Ht Hns. rewrite validateFormData_checkInOrder.
  unfold checkInOrder, firstViolation, rules, violates, everyPayload.
  cbn [find concerns demand reason field andb isNonNullObject negb].
  rewrite Hft, Ht.
  destruct v; try reflexivity. by destruct (Hns s).
Qed.

(** X11. Validation depends on the six fields it reads only: setting any
    other field of an object to any value, or removing it, leaves the result
    unchanged. *)
Theorem validateFormData_other_fields (props : gmap (list N) json)
    (key : jsstring) (v : json) :
  key ∉ validatedFields ->
  validateFormData (Some (JObject (<[key := v]> props)))
  = validateFormData (Some (JObject props))
  /\ validateFormData (Some (JObject (delete key props)))
     = validateFormData (Some (JObject props)).
Proof.
  intros Hkey. unfold validatedFields in Hkey.
  rewrite !not_elem_of_cons in Hkey.
  destruct Hkey as (? & ? & ? & ? & ? & ? & _).
  split; apply validateFormData_fields;
    (by apply lookup_insert_ne) || (by apply lookup_delete_ne).
Qed.

Lemma count_at_run (r : jsstring) :
  Forall (fun c => notSpaceNorAt c = true) r -> count_occ N.eq_dec r 64 = 0%nat.
Proof.
  induction 1 as [| c r Hc _ IH]; [reflexivity |].
  simpl. destruct (N.eq_dec c 64) as [-> | _]; [discriminate | exact IH].
Qed.

Lemma no_space_run (r : jsstring) :
  Forall (fun c => notSpaceNorAt c = true) r ->
  forallb (fun c => negb (isWhiteSpace c)) r = true.
Proof.
  induction 1 as [| c r Hc _ IH]; [reflexivity |].
  simpl. rewrite IH, andb_true_r.
  unfold notSpaceNorAt in Hc. apply negb_true_iff, orb_false_iff in Hc.
  by rewrite (proj1 Hc).
Qed.

(** X12. A string accepted by [isValidEmail] contains exactly one [@], no
    white space (so no line break), and at least five code units. *)
Theorem isValidEmail_one_at (s : jsstring) :
  isValidEmail s = true ->
  count_occ N.eq_dec s 64 = 1%nat
  /\ forallb (fun c => negb (isWhiteSpace c)) s = true
  /\ (5 <= length s)%nat.
Proof.
  intros H. apply isValidEmail_email_shape in H.
  destruct H as (l & d & t & -> & Hl & Hd & Ht & Al & Ad & At).
  split; [| split].
  - rewrite !count_occ_app, (count_at_run l Al), (count_at_run d Ad),
      (count_at_run t At). reflexivity.
  - rewrite !forallb_app, (no_space_run l Al), (no_space_run d Ad),
      (no_space_run t At). reflexivity.
  - rewrite !length_app. simpl.
    destruct l; [done |]. destruct d; [done |]. destruct t; [done |].
    simpl. lia.
Qed.

(** X13. [getCorsHeaders] never echoes an origin outside the allow-list: the
    [Access-Control-Allow-Origin] it answers is a member of the allow-list,
    or it is [*], and [*] only outside production for an origin that is
    missing or not allowed. *)
Theorem getCorsHeaders_never_reflects (env : ProcessEnv)
    (origin : option jsstring) :
  exists v,
    header (lit "Access-Control-Allow-Origin") (getCorsHeaders env origin)
    = Some v
    /\ (v ∈ allowedOrigins
        \/ (v = lit "*" /\ NODE_ENV env <> Some (lit "production")
            /\ forall o, origin = Some o -> o ∉ allowedOrigins)).
Proof.
  unfold getCorsHeaders.
  assert (Hfallback :
    let v := match NODE_ENV env with
             | Some mode => if str_eqb mode (lit "production")
                            then lit "https://caduae.com" else lit "*"
             | None => lit "*"
             end in
    v ∈ allowedOrigins
    \/ (v = lit "*" /\ NODE_ENV env <> Some (lit "production"))).
  { destruct (NODE_ENV env) as [mode |]; cbv zeta.
    - destruct (str_eqb mode (lit "production")) eqn:Hm.
      + left. apply list_elem_of_In. simpl. auto.
      + right. split; [done |]. apply str_eqb_neq in Hm. congruence.
    - right. done. }
  cbv zeta in Hfallback.
  destruct origin as [o |].
  - destruct (negb (str_eqb o []) && existsb (str_eqb o) allowedOrigins)
      eqn:Hin.
    + exists o. split; [reflexivity |]. left. by apply allowedOrigin_member.
    + eexists. split; [reflexivity |].
      destruct Hfallback as [? | [? ?]]; [by left | right].
      repeat split; try done. intros o' [= <-] Ho.
      apply allowedOrigin_member in Ho. congruence.
  - eexists. split; [reflexivity |].
    destruct Hfallback as [? | [? ?]]; [by left | right].
    repeat split; try done.
Qed.

Section FormattingMore.
Context {printer : NumberPrinter}.

(** X14. For a support request whose fields are strings, the subject is
    [New Support Request - ] followed by the name, the HTML body carries the
    fields under the heading [New Support Request] with each line feed of
    the message replaced by [<br>], and the text body carries the fields
    unchanged. *)
Theorem formatEmailContent_support_content (props : gmap (list N) json)
    (n e p m : jsstring) :
  props !! lit "formType" = Some (JString (lit "support")) ->
  props !! lit "name" = Some (JString n) ->
  props !! lit "email" = Some (JString e) ->
  props !! lit "phone" = Some (JString p) ->
  props !! lit "message" = Some (JString m) ->
  formatEmailContent (Some (JObject props)) = Normal (supportEmail n e p m).
Proof.
  intros Hft Hn He Hp Hm.
  unfold formatEmailContent, messageBodies.
  rewrite !(interpolate_string _ _ _ Hn), !(interpolate_string _ _ _ He),
    !(interpolate_string _ _ _ Hp), !(interpolate_string _ _ _ Hm).
  cbn [Get mbind completion_bind]. rewrite Hft, Hm.
  reflexivity.
Qed.

(** X15. For a quote request whose [name], [email] and [product] are strings:
    a non-empty string [mobile] is shown as it is, in both bodies; a number
    that is neither zero nor NaN is shown as the engine prints it; [true] is
    shown as [true]; and a [mobile] that is absent or counts as false
    ([null], [false], [0], the empty string) gives the content without a
    Mobile line. The subject never shows [mobile]. *)
Theorem formatEmailContent_quote_mobile (props : gmap (list N) json)
    (n e p : jsstring) :
  props !! lit "formType" = Some (JString (lit "quote")) ->
  props !! lit "name" = Some (JString n) ->
  props !! lit "email" = Some (JString e) ->
  props !! lit "product" = Some (JString p) ->
  (forall m, props !! lit "mobile" = Some (JString m) -> m <> [] ->
     formatEmailContent (Some (JObject props))
     = Normal (quoteEmailMobile n e m p))
  /\ (forall x, props !! lit "mobile" = Some (JNumber x) ->
        truthy (Some (JNumber x)) = true ->
        formatEmailContent (Some (JObject props))
        = Normal (quoteEmailMobile n e (numberToString x) p))
  /\ (props !! lit "mobile" = Some (JBool true) ->
      formatEmailContent (Some (JObject props))
      = Normal (quoteEmailMobile n e (lit "true") p))
  /\ (truthy (props !! lit "mobile") = false ->
      formatEmailContent (Some (JObject props))
      = Normal (quoteEmailPlain n e p)).
Proof.
  intros Hft Hn He Hp.
  rewrite (formatEmailContent_quote props n e p Hft Hn He Hp).
  repeat split.
  - intros m -> Hm. cbn [truthy]. apply str_eqb_neq in Hm. by rewrite Hm.
  - intros x -> Hx. by rewrite Hx.
  - by intros ->.
  - by intros ->.
Qed.

Lemma formatEmailContent_unconvertible (data : value)
    (mobile : gmap (list N) json) (v : json) :
  validateFormData data = Normal accepted ->
  field data "formType" = Some (JString (lit "quote")) ->
  field data "mobile" = Some (JObject mobile) ->
  mobile !! lit "toString" = Some v ->
  formatEmailContent data
  = Throw (ErrorInstance (lit "Cannot convert object to primitive value")).
Proof.
  intros Hv Hq Hm Hts.
  destruct (accepted_object data Hv) as [props ->]. cbn [field] in *.
  destruct (accepted_common props Hv) as (n & e & Hn & _ & He & _).
  destruct (accepted_quote props Hv Hq) as (p & Hp & _).
  rewrite (formatEmailContent_quote props n e p Hq Hn He Hp), Hm.
  cbn [truthy ToString ToStringJson]. by rewrite Hts.
Qed.

(** X16. On an accepted payload that is not a quote request with an array
    under [mobile], [formatEmailContent] raises in one case only: a quote
    request whose [mobile] is an object with a [toString] field of its own;
    it then raises the engine's conversion error. In every other case the
    content is composed. *)
Theorem formatEmailContent_raises_iff (data : value) :
  validateFormData data = Normal accepted ->
  (field data "formType" = Some (JString (lit "quote")) ->
   forall items, field data "mobile" <> Some (JArray items)) ->
  let ownToString :=
    field data "formType" = Some (JString (lit "quote"))
    /\ exists (mobile : gmap (list N) json) (v : json),
         field data "mobile" = Some (JObject mobile)
         /\ mobile !! lit "toString" = Some v in
  (ownToString ->
   formatEmailContent data
   = Throw (ErrorInstance (lit "Cannot convert object to primitive value")))
  /\ (~ ownToString ->
      exists content, formatEmailContent data = Normal content).
Proof.
  intros Hv Harray ownToString. split.
  - intros (Hq & mobile & v & Hm & Hts).
    by apply (formatEmailContent_unconvertible data mobile v).
  - intros Hnot.
    destruct (accepted_object data Hv) as [props ->]. cbn [field] in *.
    destruct (accepted_common props Hv) as (n & e & Hn & _ & He & _).
    destruct (accepted_formType props Hv) as (t & Hft & Ht).
    destruct Ht as [-> | [-> | ->]].
    + destruct (accepted_message props _ Hv Hft) as (p & m & Hp & Hm); auto.
      rewrite (formatEmailContent_contact props n e p m); eauto.
    + destruct (accepted_message props _ Hv Hft) as (p & m & Hp & Hm); auto.
      apply (formatEmailContent_support props n e p m); auto.
    + destruct (accepted_quote props Hv Hft) as (p & Hp & _).
      rewrite (formatEmailContent_quote props n e p Hft Hn He Hp).
      destruct (truthy (props !! lit "mobile")) eqn:Htruthy; [| eauto].
      destruct (props !! lit "mobile") as [[| b | x | s | items | mobile] |]
        eqn:Hm.
      * discriminate.
      * cbn. eauto.
      * cbn. eauto.
      * cbn. eauto.
      * by destruct (Harray Hft items).
      * cbn [ToString ToStringJson].
        destruct (mobile !! lit "toString") as [v |] eqn:Hts; [| cbn; eauto].
        destruct Hnot. split; [exact Hft |]. exists mobile, v. done.
      * discriminate.
Qed.

Lemma lines_suffix_no_LF (n q : jsstring) :
  Forall (fun c => c <> LF) n -> Forall (fun c => c <> LF) q ->
  lines (n ++ q) = [n ++ q].
Proof. intros Hn Hq. apply lines_no_LF. by apply Forall_app. Qed.

(** X17. For an accepted quote submission whose content is composed: when
    [mobile] counts as true the HTML body has a line beginning with the
    Mobile paragraph; when [mobile] is absent or counts as false and the
    name has no line feed, no line of the HTML body begins with it. *)
Theorem quote_html_mobile_line (data : value) (content : EmailContent) :
  validateFormData data = Normal accepted ->
  field data "formType" = Some (JString (lit "quote")) ->
  formatEmailContent data = Normal content ->
  (truthy (field data "mobile") = true ->
   hasLine (lit "      <p><strong>Mobile:</strong> ") (html content) = true)
  /\ (truthy (field data "mobile") = false ->
      Forall (fun c => c <> LF) (asString (field data "name")) ->
      hasLine (lit "      <p><strong>Mobile:</strong> ") (html content)
      = false).
Proof.
  intros Hv Hft.
  destruct (accepted_object data Hv) as [props ->]. cbn [field] in *.
  destruct (accepted_common props Hv) as (n & e & Hn & _ & He & Hee).
  destruct (accepted_quote props Hv Hft) as (p & Hp & Hpp).
  rewrite (formatEmailContent_quote props n e p); auto.
  rewrite Hn. cbn [asString].
  destruct (truthy (props !! lit "mobile")).
  - destruct (ToString (props !! lit "mobile")) as [m | err];
      cbn [mbind completion_bind]; [| discriminate].
    intros [= <-]. split; [| discriminate]. intros _.
    cbn [html quoteEmailMobile]. rewrite hasLine_template. cbn [existsb].
    rewrite (hasLine_prefix _ (lit "      <p><strong>Mobile:</strong> ")
               (m ++ lit "</p>")) by (by apply no_LF_dec).
    replace (startsWith (lit "      <p><strong>Mobile:</strong> ")
               (lit "      <p><strong>Mobile:</strong> "
                ++ hd [] (lines (m ++ lit "</p>"))))
      with true by reflexivity.
    cbn [orb]. by rewrite !orb_true_r.
  - intros [= <-]. split; [discriminate |]. intros _ Hname.
    cbn [html quoteEmailPlain]. rewrite hasLine_template. cbn [existsb].
    assert (Hline : forall q r,
               forallb (fun c => negb (c =? LF)) q = true ->
               Forall (fun c => c <> LF) r ->
               hasLine (lit "      <p><strong>Mobile:</strong> ")
                 (q ++ r ++ lit "</p>")
               = startsWith (lit "      <p><strong>Mobile:</strong> ")
                   (q ++ r ++ lit "</p>")).
    { intros q r Hq Hr. unfold hasLine.
      rewrite lines_no_LF; [simpl; by rewrite orb_false_r |].
      apply Forall_app. split; [by apply no_LF_dec |].
      apply Forall_app. split; [done | by apply no_LF_dec]. }
    assert (Hproduct : Forall (fun c => c <> LF) p).
    { apply list_elem_of_In in Hpp. simpl in Hpp.
      destruct Hpp as [<- | [<- | [<- | [<- | []]]]]; by apply no_LF_dec. }
    rewrite (Hline (lit "      <p><strong>Name:</strong> ") n eq_refl Hname),
      (Hline (lit "      <p><strong>Email:</strong> ") e eq_refl
         (isValidEmail_no_LF e Hee)),
      (Hline (lit "      <p><strong>Product:</strong> ") p eq_refl Hproduct).
    reflexivity.
Qed.

End FormattingMore.

Lemma header_app (key : jsstring) (h1 h2 : Headers) :
  header key (h1 ++ h2) =
    match header key h1 with
    | Some v => Some v
    | None => header key h2
    end.
Proof.
  induction h1 as [| [k v] h1 IH]; [reflexivity |].
  simpl. by destruct (str_eqb k key).
Qed.

Lemma header_jsonResponse (code : N) (st msg : jsstring) (h : Headers)
    (key v : jsstring) :
  header key h = Some v ->
  header key (responseHeaders (jsonResponse code st msg h)) = Some v.
Proof.
  intros H. cbn [jsonResponse NextResponse_json responseHeaders].
  by rewrite header_app, H.
Qed.

Lemma header_jsonResponse_content_type (env : ProcessEnv)
    (origin : option jsstring) (code : N) (st msg : jsstring) :
  header (lit "content-type")
    (responseHeaders (jsonResponse code st msg (getCorsHeaders env origin)))
  = Some (lit "application/json").
Proof.
  cbn [jsonResponse NextResponse_json responseHeaders].
  rewrite header_app. reflexivity.
Qed.

Section HandlerMore.
Context {printer : NumberPrinter}.
Variables (env : ProcessEnv) (request : NextRequest).

Let cors : Headers := getCorsHeaders env (originHeader request).

(** X1. Whatever the request body is and whatever the relay does, a run of
    the handler ends with a response that carries every CORS header computed
    from the request's origin, with its value, beside the content type of
    JSON, and a body with a status and a message: 200 with [success], or 400
    or 500 with [error]. The relay is invoked at most once in a run. *)
Theorem POST_response_structured (w : World) :
  exists evs response st msg,
    run w (POST env request) = (evs, Normal response)
    /\ (forall key v,
          header key cors = Some v ->
          header key (responseHeaders response) = Some v)
    /\ header (lit "content-type") (responseHeaders response)
       = Some (lit "application/json")
    /\ responseBody response = Some {| status := st; message := msg |}
    /\ ((httpStatus response = 200 /\ st = lit "success")
        \/ (httpStatus response = 400 /\ st = lit "error")
        \/ (httpStatus response = 500 /\ st = lit "error"))
    /\ (relayCalls evs <= 1)%nat.
Proof.
  destruct (run_POST_cases env request w)
    as [(e & _ & ->) | [(body & r & _ & _ & ->) | [(body & e & _ & _ & _ & ->)
       | [(body & c & e & _ & _ & _ & _ & ->) | (body & c & _ & _ & _ & _ & ->)]]]];
    do 4 eexists; (split; [reflexivity |]);
    (split; [intros key v; apply header_jsonResponse |]);
    (split; [apply header_jsonResponse_content_type |]);
    (split; [reflexivity |]); (split; [| cbn; lia]); auto.
Qed.

(** X2. When reading the request body as JSON fails, the handler answers 500,
    not 400, with the message of the parse failure, or the fallback sentence
    when the failure is no [Error]; it logs the failure under
    [Error sending email:] and does not invoke the relay. *)
Theorem POST_malformed_json (w : World) (e : thrown) :
  requestJson w = Throw e ->
  run w (POST env request) =
    ( [Logged (lit "Error sending email:") e],
      Normal (jsonResponse 500 (lit "error")
                match e with
                | ErrorInstance msg => msg
                | NonError _ =>
                    lit "An error occurred while sending your message. Please try again later."
                end cors) ).
Proof. intros H. rewrite run_POST, H. reflexivity. Qed.

(** X3. A message handed to the relay during a run is the only one of that
    run; it goes from [noreply@caduae.com] to [info@caduae.com]; its subject
    and bodies are those composed from a body that parsed and passed
    validation; and its [replyTo] is that body's [email], a string that
    matches the e-mail pattern. *)
Theorem POST_sent_mail (w : World) (m : MailOptions) :
  m ∈ sentMails (fst (run w (POST env request))) ->
  from m = lit "noreply@caduae.com"
  /\ to m = lit "info@caduae.com"
  /\ sentMails (fst (run w (POST env request))) = [m]
  /\ exists body content e,
       requestJson w = Normal body
       /\ validateFormData (Some body) = Normal accepted
       /\ formatEmailContent (Some body) = Normal content
       /\ mailSubject m = subject content
       /\ mailHtml m = html content
       /\ mailText m = text content
       /\ field (Some body) "email" = Some (JString e)
       /\ replyTo m = Some (JString e)
       /\ isValidEmail e = true.
Proof.
  assert (Hmail : forall body content,
            validateFormData (Some body) = Normal accepted ->
            exists e, field (Some body) "email" = Some (JString e)
                      /\ replyTo (relayMessage content (field (Some body) "email"))
                         = Some (JString e)
                      /\ isValidEmail e = true).
  { intros body content Hv.
    destruct (accepted_object _ Hv) as [props Heq]. injection Heq as ->.
    destruct (accepted_common props Hv) as (n & e & _ & _ & He & Hee).
    exists e. cbn [field relayMessage replyTo]. by rewrite He. }
  destruct (run_POST_cases env request w)
    as [(e & _ & ->) | [(body & r & _ & _ & ->) | [(body & e & _ & _ & _ & ->)
       | [(body & c & e & Hb & Hv & Hc & _ & ->) | (body & c & Hb & Hv & Hc & _ & ->)]]]];
    cbn [fst sentMails flat_map app]; intros Hin;
    try (by apply elem_of_nil in Hin);
    apply list_elem_of_singleton in Hin as ->;
    (split; [reflexivity |]); (split; [reflexivity |]);
    (split; [reflexivity |]);
    destruct (Hmail body c Hv) as (e' & ? & ? & ?);
    exists body, c, e'; done.
Qed.

(** X4. The status of the response tells what happened: it is 400 exactly
    when the body parsed and validation did not accept it, and 200 exactly
    when the body parsed, was accepted, its content was composed and the
    relay's call completed. *)
Theorem POST_status_iff (w : World) (response : NextResponse) :
  snd (run w (POST env request)) = Normal response ->
  (httpStatus response = 400
   <-> exists body, requestJson w = Normal body
                    /\ validateFormData (Some body) <> Normal accepted)
  /\ (httpStatus response = 200
      <-> exists body content,
            requestJson w = Normal body
            /\ validateFormData (Some body) = Normal accepted
            /\ formatEmailContent (Some body) = Normal content
            /\ relay w (relayMessage content (field (Some body) "email"))
               = Normal tt).
Proof.
  destruct (run_POST_cases env request w)
    as [(e & Hb & ->) | [(body & r & Hb & Hr & ->) | [(body & e & Hb & Hv & Hc & ->)
       | [(body & c & e & Hb & Hv & Hc & Hrelay & ->) | (body & c & Hb & Hv & Hc & Hrelay & ->)]]]];
    cbn [snd]; intros [= <-]; cbn [httpStatus jsonResponse NextResponse_json].
  - split; (split; [discriminate |]).
    + intros (b & Hb' & _). congruence.
    + intros (b & c & Hb' & _). congruence.
  - split; split; try discriminate; try (intros _; reflexivity).
    + intros _. exists body. split; [done |].
      rewrite validateFormData_checkInOrder. unfold checkInOrder.
      rewrite Hr. discriminate.
    + intros (b & c & Hb' & Hv & _).
      assert (b = body) as -> by congruence.
      rewrite validateFormData_checkInOrder in Hv. unfold checkInOrder in Hv.
      rewrite Hr in Hv. discriminate.
  - split; (split; [discriminate |]).
    + intros (b & Hb' & Hnv). assert (b = body) as -> by congruence. done.
    + intros (b & c & Hb' & _ & Hc' & _).
      assert (b = body) as -> by congruence. congruence.
  - split; (split; [discriminate |]).
    + intros (b & Hb' & Hnv). assert (b = body) as -> by congruence. done.
    + intros (b & c' & Hb' & _ & Hc' & Hrelay').
      assert (b = body) as -> by congruence.
      assert (c' = c) as -> by congruence. congruence.
  - split; split; try discriminate; try (intros _; reflexivity).
    + intros (b & Hb' & Hnv). assert (b = body) as -> by congruence. done.
    + intros _. exists body, c. done.
Qed.

(** X5. An accepted quote submission whose [mobile] is an object with a
    [toString] field of its own is answered 500 with the engine's conversion
    error as message; the failure is logged and the relay is not invoked. *)
Theorem POST_unconvertible_mobile (w : World) (body : json)
    (mobile : gmap (list N) json) (v : json) :
  requestJson w = Normal body ->
  validateFormData (Some body) = Normal accepted ->
  field (Some body) "formType" = Some (JString (lit "quote")) ->
  field (Some body) "mobile" = Some (JObject mobile) ->
  mobile !! lit "toString" = Some v ->
  run w (POST env request) =
    ( [Logged (lit "Error sending email:")
         (ErrorInstance (lit "Cannot convert object to primitive value"))],
      Normal (jsonResponse 500 (lit "error")
                (lit "Cannot convert object to primitive value") cors) ).
Proof.
  intros Hb Hv Hq Hm Hts.
  rewrite run_POST, Hb, Hv. cbn [valid accepted negb].
  by rewrite (formatEmailContent_unconvertible _ mobile v Hv Hq Hm Hts).
Qed.

(** X6. The message of a 400 answer is always the reason of one of the nine
    rules: it is never empty, and the [Validation failed] default of the
    handler is never what the caller receives. *)
Theorem POST_rejection_reason (w : World) (response : NextResponse) :
  snd (run w (POST env request)) = Normal response ->
  httpStatus response = 400 ->
  exists msg,
    responseBody response = Some {| status := lit "error"; message := msg |}
    /\ msg ∈ map reason rules
    /\ msg <> []
    /\ msg <> lit "Validation failed".
Proof.
  destruct (run_POST_cases env request w)
    as [(e & Hb & ->) | [(body & r & Hb & Hr & ->) | [(body & e & Hb & Hv & Hc & ->)
       | [(body & c & e & Hb & Hv & Hc & Hrelay & ->) | (body & c & Hb & Hv & Hc & Hrelay & ->)]]]];
    cbn [snd]; intros [= <-]; cbn [httpStatus jsonResponse NextResponse_json];
    try discriminate.
  intros _. exists (reason r). split; [reflexivity |].
  apply find_some in Hr as [Hin _].
  split; [apply list_elem_of_In, in_map, Hin |].
  simpl in Hin.
  repeat (destruct Hin as [<- | Hin]; [split; intros H; vm_compute in H; discriminate H |]).
  destruct Hin.
Qed.


End HandlerMore.

(** ** The further properties at concrete requests *)

Lemma POST_malformed_json_witness :
  let failure := ErrorInstance (lit "Unexpected end of JSON input") in
  let w := {| requestJson := Throw failure; relay := fun _ => Normal tt |} in
  requestJson w = Throw failure
  /\ run w (@POST examplePrinter exampleEnv exampleRequest)
     = ( [Logged (lit "Error sending email:") failure],
         Normal (jsonResponse 500 (lit "error")
                   (lit "Unexpected end of JSON input")
                   (getCorsHeaders exampleEnv (originHeader exampleRequest))) ).
Proof.
  intros failure w. split; [reflexivity |].
  exact (@POST_malformed_json examplePrinter exampleEnv exampleRequest w
           failure eq_refl).
Defined.

Lemma POST_sent_mail_witness :
  let w := deliveringWorld exampleContact in
  let m :=
    relayMessage
      (contactEmail (lit "Jane") (lit "jane@x.com") (lit "123") (lit "Hello"))
      (Some (str "jane@x.com")) in
  m ∈ sentMails (fst (run w (@POST examplePrinter exampleEnv exampleRequest)))
  /\ from m = lit "noreply@caduae.com"
  /\ to m = lit "info@caduae.com".
Proof.
  intros w m.
  assert (Hin : m ∈ sentMails
                  (fst (run w (@POST examplePrinter exampleEnv exampleRequest)))).
  { apply list_elem_of_In. vm_compute. left. reflexivity. }
  split; [exact Hin |].
  destruct (@POST_sent_mail examplePrinter exampleEnv exampleRequest w m Hin)
    as (Hfrom & Hto & _).
  split; [exact Hfrom | exact Hto].
Defined.

Lemma POST_status_iff_witness :
  let body := object [prop "name" (str "Jane")] in
  let w := deliveringWorld body in
  let response :=
    jsonResponse 400 (lit "error") (lit "formType is required")
      (getCorsHeaders exampleEnv (originHeader exampleRequest)) in
  snd (run w (@POST examplePrinter exampleEnv exampleRequest)) = Normal response
  /\ (httpStatus response = 400
      <-> exists b, requestJson w = Normal b
                    /\ validateFormData (Some b) <> Normal accepted).
Proof.
  intros body w response.
  assert (Hrun : snd (run w (@POST examplePrinter exampleEnv exampleRequest))
                 = Normal response) by (by vm_compute).
  split; [exact Hrun |].
  exact (proj1 (@POST_status_iff examplePrinter exampleEnv exampleRequest w
                  response Hrun)).
Defined.

Lemma POST_unconvertible_mobile_witness :
  let mobile : gmap (list N) json := list_to_map [prop "toString" JNull] in
  let body := exampleQuote (JObject mobile) in
  let w := deliveringWorld body in
  validateFormData (Some body) = Normal accepted
  /\ field (Some body) "mobile" = Some (JObject mobile)
  /\ mobile !! lit "toString" = Some JNull
  /\ run w (@POST examplePrinter exampleEnv exampleRequest) =
       ( [Logged (lit "Error sending email:")
            (ErrorInstance (lit "Cannot convert object to primitive value"))],
         Normal (jsonResponse 500 (lit "error")
                   (lit "Cannot convert object to primitive value")
                   (getCorsHeaders exampleEnv (originHeader exampleRequest))) ).
Proof.
  intros mobile body w.
  assert (Hv : validateFormData (Some body) = Normal accepted)
    by (by vm_compute).
  assert (Hq : field (Some body) "formType" = Some (JString (lit "quote")))
    by (by vm_compute).
  assert (Hm : field (Some body) "mobile" = Some (JObject mobile))
    by (by vm_compute).
  assert (Hts : mobile !! lit "toString" = Some JNull) by (by vm_compute).
  split; [exact Hv |]. split; [exact Hm |]. split; [exact Hts |].
  exact (@POST_unconvertible_mobile examplePrinter exampleEnv exampleRequest w
           body mobile JNull eq_refl Hv Hq Hm Hts).
Defined.

Lemma POST_rejection_reason_witness :
  let body := exampleQuote (str "555 0100") in
  let w := {| requestJson := Normal (JArray [body]);
              relay := fun _ => Normal tt |} in
  let response :=
    jsonResponse 400 (lit "error") (lit "formType is required")
      (getCorsHeaders exampleEnv (originHeader exampleRequest)) in
  snd (run w (@POST examplePrinter exampleEnv exampleRequest)) = Normal response
  /\ exists msg,
       responseBody response
       = Some {| status := lit "error"; message := msg |}
       /\ msg ∈ map reason rules
       /\ msg <> []
       /\ msg <> lit "Validation failed".
Proof.
  intros body w response.
  assert (Hrun : snd (run w (@POST examplePrinter exampleEnv exampleRequest))
                 = Normal response) by (by vm_compute).
  split; [exact Hrun |].
  exact (@POST_rejection_reason examplePrinter exampleEnv exampleRequest w
           response Hrun eq_refl).
Defined.

Lemma validateFormData_formType_not_string_witness :
  let props : gmap (list N) json :=
    list_to_map [ prop "formType" (JArray [str "contact"]);
                  prop "name" (str "Jane") ] in
  props !! lit "formType" = Some (JArray [str "contact"])
  /\ truthy (Some (JArray [str "contact"])) = true
  /\ validateFormData (Some (JObject props))
     = Normal (rejected
                 (lit "Invalid formType. Must be contact, support, or quote")).
Proof.
  intros props.
  assert (Hft : props !! lit "formType" = Some (JArray [str "contact"]))
    by (by vm_compute).
  split; [exact Hft |]. split; [reflexivity |].
  apply (validateFormData_formType_not_string props (JArray [str "contact"]) Hft
           eq_refl).
  intros s. discriminate.
Defined.

Lemma validateFormData_blank_name_witness :
  let blank : jsstring := [160; 32; 9; 65279] in
  let props : gmap (list N) json :=
    list_to_map [ prop "formType" (str "contact");
                  prop "name" (JString blank) ] in
  isOneOf FORM_TYPES (props !! lit "formType") = true
  /\ props !! lit "name" = Some (JString blank)
  /\ forallb isWhiteSpace blank = true
  /\ validateFormData (Some (JObject props))
     = Normal (rejected (lit "name is required")).
Proof.
  intros blank props.
  assert (Hft : isOneOf FORM_TYPES (props !! lit "formType") = true)
    by (by vm_compute).
  assert (Hn : props !! lit "name" = Some (JString blank)) by (by vm_compute).
  split; [exact Hft |]. split; [exact Hn |]. split; [reflexivity |].
  exact (proj2 (validateFormData_blank_name props blank Hft Hn) eq_refl).
Defined.

Lemma validateFormData_other_fields_witness :
  let props : gmap (list N) json :=
    list_to_map [ prop "formType" (str "contact"); prop "name" (str "Jane") ] in
  (lit "website" ∉ validatedFields)
  /\ validateFormData (Some (JObject (<[lit "website" := JBool true]> props)))
     = validateFormData (Some (JObject props)).
Proof.
  intros props.
  assert (Hkey : lit "website" ∉ validatedFields).
  { intros H. apply list_elem_of_In in H. vm_compute in H.
    intuition discriminate. }
  split; [exact Hkey |].
  exact (proj1 (validateFormData_other_fields props (lit "website")
                  (JBool true) Hkey)).
Defined.

Lemma isValidEmail_one_at_witness :
  isValidEmail (lit "jane@x.com") = true
  /\ count_occ N.eq_dec (lit "jane@x.com") 64 = 1%nat.
Proof.
  assert (H : isValidEmail (lit "jane@x.com") = true) by (by vm_compute).
  split; [exact H |].
  exact (proj1 (isValidEmail_one_at (lit "jane@x.com") H)).
Defined.

Lemma formatEmailContent_support_content_witness :
  let props : gmap (list N) json :=
    list_to_map
      [ prop "formType" (str "support"); prop "name" (str "Jane");
        prop "email" (str "jane@x.com"); prop "phone" (str "123");
        prop "message" (str "Hello") ] in
  props !! lit "formType" = Some (JString (lit "support"))
  /\ @formatEmailContent examplePrinter (Some (JObject props))
     = Normal (supportEmail (lit "Jane") (lit "jane@x.com") (lit "123")
                 (lit "Hello")).
Proof.
  intros props.
  assert (Hft : props !! lit "formType" = Some (JString (lit "support")))
    by (by vm_compute).
  split; [exact Hft |].
  apply (@formatEmailContent_support_content examplePrinter props); by vm_compute.
Defined.

Lemma formatEmailContent_quote_mobile_witness :
  let props : gmap (list N) json :=
    list_to_map
      [ prop "formType" (str "quote"); prop "name" (str "Jane");
        prop "email" (str "jane@x.com"); prop "product" (str "LANDMARK");
        prop "mobile" (str "555 0100") ] in
  props !! lit "mobile" = Some (JString (lit "555 0100"))
  /\ @formatEmailContent examplePrinter (Some (JObject props))
     = Normal (quoteEmailMobile (lit "Jane") (lit "jane@x.com")
                 (lit "555 0100") (lit "LANDMARK")).
Proof.
  intros props.
  assert (Hft : props !! lit "formType" = Some (JString (lit "quote")))
    by (by vm_compute).
  assert (Hn : props !! lit "name" = Some (JString (lit "Jane")))
    by (by vm_compute).
  assert (He : props !! lit "email" = Some (JString (lit "jane@x.com")))
    by (by vm_compute).
  assert (Hp : props !! lit "product" = Some (JString (lit "LANDMARK")))
    by (by vm_compute).
  assert (Hm : props !! lit "mobile" = Some (JString (lit "555 0100")))
    by (by vm_compute).
  split; [exact Hm |].
  apply (proj1 (@formatEmailContent_quote_mobile examplePrinter props _ _ _
                  Hft Hn He Hp) _ Hm).
  vm_compute. discriminate.
Defined.

Lemma formatEmailContent_raises_iff_witness :
  let mobile : gmap (list N) json :=
    list_to_map [prop "toString" (str "555"); prop "number" (str "555")] in
  let data := Some (exampleQuote (JObject mobile)) in
  validateFormData data = Normal accepted
  /\ field data "mobile" = Some (JObject mobile)
  /\ mobile !! lit "toString" = Some (str "555")
  /\ @formatEmailContent examplePrinter data
     = Throw (ErrorInstance (lit "Cannot convert object to primitive value")).
Proof.
  intros mobile data.
  assert (Hv : validateFormData data = Normal accepted) by (by vm_compute).
  assert (Hq : field data "formType" = Some (JString (lit "quote")))
    by (by vm_compute).
  assert (Hm : field data "mobile" = Some (JObject mobile)) by (by vm_compute).
  assert (Hts : mobile !! lit "toString" = Some (str "555"))
    by (by vm_compute).
  assert (Harray : field data "formType" = Some (JString (lit "quote")) ->
                   forall items, field data "mobile" <> Some (JArray items)).
  { intros _ items. rewrite Hm. discriminate. }
  split; [exact Hv |]. split; [exact Hm |]. split; [exact Hts |].
  apply (proj1 (@formatEmailContent_raises_iff examplePrinter data Hv Harray)).
  split; [exact Hq |]. exists mobile, (str "555"). split; [exact Hm | exact Hts].
Defined.

Lemma quote_html_mobile_line_witness :
  let data := Some (exampleQuote (str "555 0100")) in
  let content :=
    quoteEmailMobile (lit "Jane") (lit "jane@x.com") (lit "555 0100")
      (lit "LANDMARK") in
  validateFormData data = Normal accepted
  /\ @formatEmailContent examplePrinter data = Normal content
  /\ hasLine (lit "      <p><strong>Mobile:</strong> ") (html content) = true.
Proof.
  intros data content.
  assert (Hv : validateFormData data = Normal accepted) by (by vm_compute).
  assert (Hq : field data "formType" = Some (JString (lit "quote")))
    by (by vm_compute).
  assert (Hc : @formatEmailContent examplePrinter data = Normal content)
    by (by vm_compute).
  split; [exact Hv |]. split; [exact Hc |].
  apply (proj1 (@quote_html_mobile_line examplePrinter data content Hv Hq Hc)).
  by vm_compute.
Defined.
